(** * ollama/_utils.py: conversion of Python callables to tool descriptors

    A shallow embedding of [src/ollama/_utils.py] and the properties of its
    four functions: [_get_json_type], [_is_optional_type],
    [convert_function_to_tool] and [process_tools].

    Python values are modelled as follows.
    - [str] is [string]; an [ascii] stands for the code point of the same
      number, so the strings of the model are the Python strings over the
      code points 0..255.
    - Exceptions are values of [exn]; a computation that may raise has type
      [result A].
    - A [dict] whose iteration order matters is an association list; writing
      a key keeps the position of a key already present and appends a new one.
    - Annotation objects are the inductive [annotation]; the behaviour of
      [typing.get_origin], [typing.get_args], [isinstance], [issubclass] and
      [hasattr] on them follows CPython 3.11. *)

From Stdlib Require Import Bool Arith List Ascii String Lia.
Import ListNotations.

Open Scope string_scope.
Open Scope list_scope.
Open Scope nat_scope.

(** ** Strings *)

Module Str.

(** [str.isspace] on one code point below 256. *)
Definition is_space (c : ascii) : bool :=
  let n := nat_of_ascii c in
  ((9 <=? n) && (n <=? 13)) || ((28 <=? n) && (n <=? 32))
  || (n =? 133) || (n =? 160).

(** [str.lower] on one code point below 256. *)
Definition lower_char (c : ascii) : ascii :=
  let n := nat_of_ascii c in
  if ((65 <=? n) && (n <=? 90))
     || ((192 <=? n) && (n <=? 222) && negb (n =? 215))
  then ascii_of_nat (n + 32) else c.

Fixpoint lower (s : string) : string :=
  match s with
  | EmptyString => EmptyString
  | String c s' => String (lower_char c) (lower s')
  end.

Fixpoint lstrip (s : string) : string :=
  match s with
  | EmptyString => EmptyString
  | String c s' => if is_space c then lstrip s' else s
  end.

Fixpoint rstrip (s : string) : string :=
  match s with
  | EmptyString => EmptyString
  | String c s' =>
      match rstrip s' with
      | EmptyString => if is_space c then EmptyString else String c EmptyString
      | r => String c r
      end
  end.

(** [s.strip()] *)
Definition strip (s : string) : string := rstrip (lstrip s).

(** [s.startswith(p)] *)
Definition startswith (s p : string) : bool := String.prefix p s.

(** [sub in s], for a non-empty [sub] *)
Fixpoint contains (sub s : string) : bool :=
  match s with
  | EmptyString => false
  | String _ s' => String.prefix sub s || contains sub s'
  end.

(** The segments of [s] between the occurrences of [sep], found from the
    left and not overlapping, as a head segment and the following ones.
    [skip] counts the characters of an occurrence still to be passed. *)
Fixpoint split_from (sep : string) (skip : nat) (s : string)
  : string * list string :=
  match s with
  | EmptyString => (EmptyString, [])
  | String c s' =>
      match skip with
      | S k => split_from sep k s'
      | O =>
          if String.prefix sep s
          then (EmptyString,
                let (h, t) := split_from sep (String.length sep - 1) s' in
                h :: t)
          else let (h, t) := split_from sep 0 s' in (String c h, t)
      end
  end.

(** [s.split(sep)], for a non-empty [sep] *)
Definition split (sep s : string) : list string :=
  let (h, t) := split_from sep 0 s in h :: t.

(** [s[n:]] *)
Fixpoint drop (n : nat) (s : string) : string :=
  match n, s with
  | S n', String _ s' => drop n' s'
  | _, _ => s
  end.

(** [s.split(sep, 1)]: cut at the first occurrence only. *)
Fixpoint split1 (sep s : string) : list string :=
  match s with
  | EmptyString => [EmptyString]
  | String c s' =>
      if String.prefix sep s
      then [EmptyString; drop (String.length sep) s]
      else match split1 sep s' with
           | h :: t => String c h :: t
           | [] => []
           end
  end.

(** [sep.join(l)] *)
Fixpoint join (sep : string) (l : list string) : string :=
  match l with
  | [] => EmptyString
  | [x] => x
  | x :: l' => (x ++ sep ++ join sep l')%string
  end.

(** The line feed, ['\n']. *)
Definition nl : string := String (ascii_of_nat 10) EmptyString.

End Str.

(** ** Exceptions and results *)

Inductive result_of (E A : Type) : Type :=
| Ok (a : A)
| Raise (e : E).

Arguments Ok {E A} a.
Arguments Raise {E A} e.

Definition bind {E A B} (r : result_of E A) (k : A -> result_of E B)
  : result_of E B :=
  match r with
  | Ok a => k a
  | Raise e => Raise e
  end.

Notation "x <- r ;; k" := (bind r (fun x => k))
  (at level 61, r at next level, right associativity).

(** A list comprehension whose element expression may raise: the elements
    are evaluated from the left and the first exception ends it. *)
Fixpoint collect {E A} (l : list (result_of E A)) : result_of E (list A) :=
  match l with
  | [] => Ok []
  | r :: l' => a <- r ;; rest <- collect l' ;; Ok (a :: rest)
  end.

(** [[f(x) for x in l]] *)
Definition for_each {E A B} (f : A -> result_of E B) (l : list A)
  : result_of E (list B) :=
  collect (map f l).

(** [l[i]] *)
Definition index {E A} (out_of_range : E) (l : list A) (i : nat)
  : result_of E A :=
  match nth_error l i with
  | Some a => Ok a
  | None => Raise out_of_range
  end.

(** ** Classes and annotation objects *)

(** The classes the module names, with the abstract base classes and the
    built-in classes related to them. *)
Inductive known_class : Type :=
| c_int | c_str | c_float | c_bool | c_NoneType | c_bytes
| c_list | c_tuple | c_set | c_frozenset | c_dict
| c_UnionType
| abc_Iterable
| abc_Sequence | abc_MutableSequence
| abc_Set | abc_MutableSet
| abc_Mapping | abc_MutableMapping.

Definition known_class_eq_dec (a b : known_class) : {a = b} + {a <> b}.
Proof. decide equality. Defined.

Definition known_class_name (k : known_class) : string :=
  match k with
  | c_int => "int" | c_str => "str" | c_float => "float" | c_bool => "bool"
  | c_NoneType => "NoneType" | c_bytes => "bytes"
  | c_list => "list" | c_tuple => "tuple" | c_set => "set"
  | c_frozenset => "frozenset" | c_dict => "dict"
  | c_UnionType => "UnionType"
  | abc_Iterable => "Iterable"
  | abc_Sequence => "Sequence" | abc_MutableSequence => "MutableSequence"
  | abc_Set => "Set" | abc_MutableSet => "MutableSet"
  | abc_Mapping => "Mapping" | abc_MutableMapping => "MutableMapping"
  end.

(** The proper superclasses of a class among the known ones, inherited or
    registered with an abstract base class. *)
Definition superclasses (k : known_class) : list known_class :=
  match k with
  | c_bool => [c_int]
  | c_str | c_bytes | c_tuple => [abc_Sequence; abc_Iterable]
  | c_list => [abc_MutableSequence; abc_Sequence; abc_Iterable]
  | c_set => [abc_MutableSet; abc_Set; abc_Iterable]
  | c_frozenset => [abc_Set; abc_Iterable]
  | c_dict => [abc_MutableMapping; abc_Mapping; abc_Iterable]
  | abc_MutableSequence => [abc_Sequence; abc_Iterable]
  | abc_MutableSet => [abc_Set; abc_Iterable]
  | abc_MutableMapping => [abc_Mapping; abc_Iterable]
  | abc_Sequence | abc_Set | abc_Mapping => [abc_Iterable]
  | c_int | c_float | c_NoneType | c_UnionType | abc_Iterable => []
  end.

(** A class object: a known class, or any other class, given by its
    [__name__] and the known classes it derives from. *)
Inductive pyclass : Type :=
| Known (k : known_class)
| Other (name : string) (bases : list known_class).

Definition pyclass_eq_dec (a b : pyclass) : {a = b} + {a <> b}.
Proof.
  decide equality;
    [ apply known_class_eq_dec
    | apply (list_eq_dec known_class_eq_dec)
    | apply string_dec ].
Defined.

Definition class_name (c : pyclass) : string :=
  match c with
  | Known k => known_class_name k
  | Other name _ => name
  end.

Definition known_issubclass (k target : known_class) : bool :=
  if known_class_eq_dec k target then true
  else existsb (fun s => if known_class_eq_dec s target then true else false)
         (superclasses k).

(** [issubclass(c, target)] *)
Definition issubclass (c : pyclass) (target : known_class) : bool :=
  match c with
  | Known k => known_issubclass k target
  | Other _ bases => existsb (fun b => known_issubclass b target) bases
  end.

(** [issubclass(c, (t1, t2, ...))] *)
Definition issubclass_any (c : pyclass) (targets : list known_class) : bool :=
  existsb (issubclass c) targets.

(** The unsubscripted aliases of [typing]: [typing.List], [typing.Dict], ... *)
Inductive typing_alias : Type :=
| t_List | t_Dict | t_Set | t_FrozenSet | t_Tuple
| t_Sequence | t_Mapping | t_Iterable.

Definition typing_alias_eq_dec (a b : typing_alias) : {a = b} + {a <> b}.
Proof. decide equality. Defined.

Definition alias_name (t : typing_alias) : string :=
  match t with
  | t_List => "List" | t_Dict => "Dict" | t_Set => "Set"
  | t_FrozenSet => "FrozenSet" | t_Tuple => "Tuple"
  | t_Sequence => "Sequence" | t_Mapping => "Mapping"
  | t_Iterable => "Iterable"
  end.

(** [typing.List.__origin__] and the like *)
Definition alias_origin (t : typing_alias) : known_class :=
  match t with
  | t_List => c_list | t_Dict => c_dict | t_Set => c_set
  | t_FrozenSet => c_frozenset | t_Tuple => c_tuple
  | t_Sequence => abc_Sequence | t_Mapping => abc_Mapping
  | t_Iterable => abc_Iterable
  end.

(** The objects that are not subscripted: the possible keys of [TYPE_MAP]
    and the possible origins. *)
Inductive atom : Type :=
| a_class (c : pyclass)          (* int, list, collections.abc.Set, ... *)
| a_None                         (* None *)
| a_str (s : string)             (* 'int', a forward reference *)
| a_Any                          (* typing.Any *)
| a_Union                        (* typing.Union *)
| a_special (name : string)      (* typing.Literal and other special forms *)
| a_alias (t : typing_alias).    (* typing.List, ... *)

Definition atom_eq_dec (a b : atom) : {a = b} + {a <> b}.
Proof.
  decide equality;
    [ apply pyclass_eq_dec | apply string_dec | apply string_dec
    | apply typing_alias_eq_dec ].
Defined.

#[warnings="-register-all"]
(** An annotation: an atom, or an object with an [__origin__] and
    [__args__], such as [Union[int, None]], [int | None], [list[int]],
    [Dict[str, int]]. *)
Inductive annotation : Type :=
| Atom (a : atom)
| Subscript (origin : atom) (args : list annotation).

Coercion Atom : atom >-> annotation.

(** [typing.get_origin] *)
Definition get_origin (tp : annotation) : option atom :=
  match tp with
  | Subscript origin _ => Some origin
  | Atom (a_alias t) => Some (a_class (Known (alias_origin t)))
  | Atom _ => None
  end.

(** [typing.get_args] *)
Definition get_args (tp : annotation) : list annotation :=
  match tp with
  | Subscript _ args => args
  | Atom _ => []
  end.

(** [isinstance(x, type)] on an atom *)
Definition is_type (a : atom) : bool :=
  match a with
  | a_class _ | a_Any => true
  | _ => false
  end.

Definition atom_name (a : atom) : option string :=
  match a with
  | a_class c => Some (class_name c)
  | a_None | a_str _ => None
  | a_Any => Some "Any"
  | a_Union => Some "Union"
  | a_special name => Some name
  | a_alias t => Some (alias_name t)
  end.

(** [x.__name__] when [hasattr(x, '__name__')]; a subscripted object
    reports the name of its origin. *)
Definition __name__ (x : annotation) : option string :=
  match x with
  | Atom a => atom_name a
  | Subscript origin _ => atom_name origin
  end.

(** The value of [type(int | str)] *)
Definition UnionType : atom := a_class (Known c_UnionType).
(** The value of [type(None)] *)
Definition NoneType : atom := a_class (Known c_NoneType).

(** ** Exceptions *)

(** The messages of the [ValueError]s the module raises, each with the
    values its f-string interpolates. *)
Inductive message : Type :=
| must_have_docstring (func_name : string)
| must_have_args_section (func_name : string)
| must_have_description (param_name : string)
| could_not_map (python_type : annotation).

Inductive exn : Type :=
| ValueError (m : message)
| IndexError
| ValidationError (detail : string).

Definition result := result_of exn.

(** The names the specification gives to the four [ValueError]s. *)
Definition MissingDocumentationError f := ValueError (must_have_docstring f).
Definition MissingSectionError f := ValueError (must_have_args_section f).
Definition MissingParameterDescriptionError p :=
  ValueError (must_have_description p).
Definition UnmappableTypeError t := ValueError (could_not_map t).

(** ** The type table and the two functions on annotations *)

(** [ollama._utils.TYPE_MAP], its entries in the order of the source.  The
    names [Sequence] and [Set] of the source are the classes of
    [collections.abc]; [List], [Dict], [TypeSet] and [Mapping] are the
    aliases of [typing]. *)
Definition TYPE_MAP : list (atom * string) :=
  [ (* Basic types *)
    (a_class (Known c_int), "integer");
    (a_str "int", "integer");
    (a_class (Known c_str), "string");
    (a_str "str", "string");
    (a_class (Known c_float), "number");
    (a_str "float", "number");
    (a_class (Known c_bool), "boolean");
    (a_str "bool", "boolean");
    (NoneType, "null");
    (a_str "None", "null");
    (* Collection types *)
    (a_class (Known c_list), "array");
    (a_str "list", "array");
    (a_alias t_List, "array");
    (a_str "List", "array");
    (a_class (Known abc_Sequence), "array");
    (a_str "Sequence", "array");
    (a_class (Known c_tuple), "array");
    (a_str "tuple", "array");
    (a_class (Known c_set), "array");
    (a_str "set", "array");
    (a_class (Known abc_Set), "array");
    (a_alias t_Set, "array");
    (a_str "Set", "array");
    (* Mapping types *)
    (a_class (Known c_dict), "object");
    (a_str "dict", "object");
    (a_alias t_Dict, "object");
    (a_str "Dict", "object");
    (a_alias t_Mapping, "object");
    (a_str "Mapping", "object");
    (a_Any, "string");
    (a_str "Any", "string") ].

Fixpoint assoc (k : atom) (d : list (atom * string)) : option string :=
  match d with
  | [] => None
  | (k', v) :: d' => if atom_eq_dec k k' then Some v else assoc k d'
  end.

(** [TYPE_MAP.get(key, None)]: a subscripted object equals no key. *)
Definition TYPE_MAP_get (key : annotation) : option string :=
  match key with
  | Atom a => assoc a TYPE_MAP
  | Subscript _ _ => None
  end.

#[warnings="-register-all"]
(** The value [_get_json_type] returns: [str | List[str]]. *)
Inductive json_type : Type :=
| JStr (s : string)
| JList (l : list json_type).

(** [arg in (None, type(None))] *)
Definition is_none (arg : annotation) : bool :=
  match arg with
  | Atom a =>
      if atom_eq_dec a a_None then true
      else if atom_eq_dec a NoneType then true else false
  | Subscript _ _ => false
  end.

(** [origin is type(int | str) or origin is Union] *)
Definition is_union (origin : option atom) : bool :=
  match origin with
  | Some o =>
      if atom_eq_dec o UnionType then true
      else if atom_eq_dec o a_Union then true else false
  | None => false
  end.

(** The truth value of a string *)
Definition truthy (s : string) : bool := negb (s =? "")%string.

(** [issubclass(origin, (t1, t2, ...))] for an origin that is a class *)
Definition origin_issubclass (origin : atom) (targets : list known_class)
  : bool :=
  match origin with
  | a_class c => issubclass_any c targets
  | _ => false
  end.

(** Lines 67-72: the kind of an origin that is a subclass of the known
    containers.  [Mapping] is the alias of [typing] there, and a subclass
    check against it is one against [collections.abc.Mapping]. *)
Definition subclass_kind (origin : atom) : option string :=
  if is_type origin then
    if origin_issubclass origin [c_list; abc_Sequence; c_tuple; c_set; abc_Set]
    then Some "array"
    else if origin_issubclass origin [c_dict; abc_Mapping]
    then Some "object"
    else None
  else None.

(** The body of [_get_json_type], lines 49-88, given for each member of
    [get_args(python_type)] the outcome of the recursive call on it. *)
Definition get_json_type_body (python_type : annotation)
    (calls : list (annotation * result json_type)) : result json_type :=
  (* Handle Optional types (Union[type, None] and type | None) *)
  let origin := get_origin python_type in
  if is_union origin then
    (* Filter out None/NoneType from union args *)
    let non_none_args := filter (fun c => negb (is_none (fst c))) calls in
    match non_none_args with
    | [] => Ok (JStr "null")
    | [(_, r)] => r
    | _ => l <- collect (map snd non_none_args) ;; Ok (JList l)
    end
  else
    (* Handle generic types (List[int], Dict[str, int], etc.) *)
    let generic : option string :=
      match origin with
      | Some o =>
          (* Get the base type (List, Dict, etc.) *)
          match TYPE_MAP_get (Atom o) with
          | Some base_type =>
              if truthy base_type then Some base_type
              else subclass_kind o
          | None => subclass_kind o
          end
      | None => None
      end in
    match generic with
    | Some kind => Ok (JStr kind)
    | None =>
        (* Handle both type objects and type references *)
        let type_key : annotation :=
          match python_type with
          | Atom (a_str s) => Atom (a_str (Str.lower s))
          | _ => python_type
          end in
        (* If type not found in map, try to get the type name *)
        let type_key : annotation :=
          match TYPE_MAP_get type_key, __name__ python_type with
          | None, Some name => Atom (a_str (Str.lower name))
          | _, _ => type_key
          end in
        match TYPE_MAP_get type_key with
        | Some kind => Ok (JStr kind)
        | None => Raise (ValueError (could_not_map python_type))
        end
    end.

Fixpoint _get_json_type (python_type : annotation) : result json_type :=
  get_json_type_body python_type
    match python_type with
    | Subscript _ args => map (fun arg => (arg, _get_json_type arg)) args
    | Atom _ => []
    end.

Definition _is_optional_type (python_type : annotation) : bool :=
  let origin := get_origin python_type in
  if is_union origin then
    let args := get_args python_type in
    existsb is_none args
  else false.

(** ** Callables and tool dictionaries *)

Module Func.

(** What the module reads of a callable [func], and the names of its
    declared parameters, which it never reads. *)
Record t : Type := {
  __name__ : string;
  __doc__ : option string;
  __annotations__ : list (string * annotation);
  co_varnames : list string
}.

End Func.

(** [d[k] = v] on a dict in insertion order *)
Fixpoint dict_set {V : Type} (k : string) (v : V) (d : list (string * V))
  : list (string * V) :=
  match d with
  | [] => [(k, v)]
  | (k', v') :: d' =>
      if (k =? k')%string then (k', v) :: d' else (k', v') :: dict_set k v d'
  end.

(** [d.get(k)] *)
Fixpoint dict_get {V : Type} (k : string) (d : list (string * V)) : option V :=
  match d with
  | [] => None
  | (k', v) :: d' => if (k =? k')%string then Some v else dict_get k d'
  end.

(** The dictionaries lines 123-158 build, as records of their keys. *)
Record Property : Type := {
  prop_type : json_type;
  prop_description : string
}.

Record Parameters : Type := {
  params_type : string;
  properties : list (string * Property);
  required : list string
}.

Record FunctionDict : Type := {
  name : string;
  description : string;
  parameters : Parameters;
  return_type : option json_type
}.

Record ToolDict : Type := {
  tool_type : string;
  function : FunctionDict
}.

(** Lines 105-111: the lines kept for the description. *)
Fixpoint description_lines (lines : list string) : list string :=
  match lines with
  | [] => []
  | line :: rest =>
      let line := Str.strip line in
      if Str.startswith line "Args:" then []
      else if truthy line then line :: description_lines rest
      else description_lines rest
  end.

(** Line 134: the three accepted beginnings of the line of a parameter. *)
Definition describes (param_name line : string) : bool :=
  Str.startswith line (param_name ++ ":")
  || Str.startswith line (param_name ++ " ")
  || Str.startswith line (param_name ++ "(").

(** Lines 130-136: [param_desc] after the loop over the lines. *)
Fixpoint find_description (param_name : string) (lines : list string)
  : result (option string) :=
  match lines with
  | [] => Ok None
  | line :: rest =>
      let line := Str.strip line in
      if describes param_name line then
        after <- index IndexError (Str.split1 ":" line) 1 ;;
        Ok (Some (Str.strip after))
      else find_description param_name rest
  end.

(** Lines 127-148: one turn of the loop over [func.__annotations__.items()]. *)
Definition add_parameter (args_section : string) (parameters : Parameters)
    (item : string * annotation) : result Parameters :=
  let (param_name, param_type) := item in
  if (param_name =? "return")%string then Ok parameters
  else
    param_desc <- find_description param_name (Str.split Str.nl args_section) ;;
    match param_desc with
    | None | Some EmptyString =>
        Raise (ValueError (must_have_description param_name))
    | Some param_desc =>
        json <- _get_json_type param_type ;;
        let entry :=
          {| prop_type := json; prop_description := param_desc |} in
        let props := dict_set param_name entry (properties parameters) in
        (* Only add to required if not optional *)
        let req :=
          if negb (_is_optional_type param_type)
          then required parameters ++ [param_name]
          else required parameters in
        Ok {| params_type := params_type parameters;
              properties := props;
              required := req |}
    end.

(** A [for] loop whose body may raise, threading the state it updates. *)
Fixpoint for_loop {S X : Type} (body : S -> X -> result S) (state : S)
    (xs : list X) : result S :=
  match xs with
  | [] => Ok state
  | x :: xs' => state' <- body state x ;; for_loop body state' xs'
  end.

(** Lines 119-121 *)
Definition args_section_of (doc_string : string) : result string :=
  args_section <- index IndexError (Str.split "Args:" doc_string) 1 ;;
  if Str.contains "Returns:" args_section
  then index IndexError (Str.split "Returns:" args_section) 0
  else Ok args_section.

(** Lines 160-161 *)
Definition return_type_of (annotations : list (string * annotation))
  : result (option json_type) :=
  match dict_get "return" annotations with
  | Some (Atom a_None) => Ok None
  | Some ret => json <- _get_json_type ret ;; Ok (Some json)
  | None => Ok None
  end.

(** Lines 100-161 of [convert_function_to_tool]: the dictionary it passes
    to [Tool.model_validate]. *)
Definition tool_dict (func : Func.t) : result ToolDict :=
  match Func.__doc__ func with
  | None | Some EmptyString =>
      Raise (ValueError (must_have_docstring (Func.__name__ func)))
  | Some doc_string =>
      (* Extract description from docstring - get all lines before Args: *)
      let description :=
        Str.strip
          (Str.join " " (description_lines (Str.split Str.nl doc_string))) in
      (* Parse Args section *)
      if negb (Str.contains "Args:" doc_string) then
        Raise (ValueError (must_have_args_section (Func.__name__ func)))
      else
        args_section <- args_section_of doc_string ;;
        let parameters :=
          {| params_type := "object"; properties := []; required := [] |} in
        (* Build parameters dict *)
        parameters <- for_loop (add_parameter args_section) parameters
                        (Func.__annotations__ func) ;;
        ret <- return_type_of (Func.__annotations__ func) ;;
        Ok {| tool_type := "function";
              function := {| name := Func.__name__ func;
                             description := description;
                             parameters := parameters;
                             return_type := ret |} |}
  end.

(** An item of the sequence given to [process_tools]: a callable, or data
    that is not callable (a mapping or a [Tool]). *)
Inductive tool_item (Raw : Type) : Type :=
| is_callable (func : Func.t)
| not_callable (data : Raw).

Arguments is_callable {Raw} func.
Arguments not_callable {Raw} data.

(** What [Tool.model_validate] is applied to. *)
Inductive validated (Raw : Type) : Type :=
| built (d : ToolDict)
| given (data : Raw).

Arguments built {Raw} d.
Arguments given {Raw} data.

Section Validator.

(** [ollama._types.Tool] and its [model_validate], which are declared
    outside this module. *)
Variable Tool : Type.
Variable Raw : Type.
Variable model_validate : validated Raw -> result Tool.

Definition convert_function_to_tool (func : Func.t) : result Tool :=
  d <- tool_dict func ;;
  model_validate (built d).

(** Lines 171-175: the loop of [process_tools]. *)
Definition process_one (processed_tools : list Tool) (tool : tool_item Raw)
  : result (list Tool) :=
  match tool with
  | is_callable func =>
      t <- convert_function_to_tool func ;; Ok (processed_tools ++ [t])
  | not_callable data =>
      t <- model_validate (given data) ;; Ok (processed_tools ++ [t])
  end.

Definition process_tools (tools : option (list (tool_item Raw)))
  : result (list Tool) :=
  match tools with
  | None | Some [] => Ok []
  | Some tools => for_loop process_one [] tools
  end.

(** Where an item goes: a callable to [convert_function_to_tool], any
    other item to the validator as it is. *)
Definition route (tool : tool_item Raw) : result Tool :=
  match tool with
  | is_callable func => convert_function_to_tool func
  | not_callable data => model_validate (given data)
  end.

End Validator.

(** ** Example values *)

Definition T_int : annotation := a_class (Known c_int).
Definition T_str : annotation := a_class (Known c_str).
Definition T_float : annotation := a_class (Known c_float).
Definition T_bool : annotation := a_class (Known c_bool).

(** [Optional[t]], that is [Union[t, None]] *)
Definition Optional (t : annotation) : annotation :=
  Subscript a_Union [t; Atom NoneType].

(** A validator that accepts every dictionary [convert_function_to_tool]
    builds and rejects all other data. *)
Definition accept_built (v : validated string) : result ToolDict :=
  match v with
  | built d => Ok d
  | given data => Raise (ValidationError data)
  end.

(** ** The vocabulary of the properties *)

(** Line 53: [[arg for arg in args if arg not in (None, type(None))]] *)
Definition non_none (args : list annotation) : list annotation :=
  filter (fun arg => negb (is_none arg)) args.

(** The classes line 69 accepts. *)
Definition array_like (c : pyclass) : bool :=
  issubclass_any c [c_list; abc_Sequence; c_tuple; c_set; abc_Set].

(** The classes line 71 accepts. *)
Definition mapping_like (c : pyclass) : bool :=
  issubclass_any c [c_dict; abc_Mapping].

(** The classes that can be subscripted, so that a parameterized
    annotation with this origin exists: the known ones with a
    [__class_getitem__], and the generic classes among the others. *)
Definition subscriptable (c : pyclass) : bool :=
  match c with
  | Known k =>
      match k with
      | c_int | c_str | c_float | c_bool | c_NoneType | c_bytes
      | c_UnionType => false
      | _ => true
      end
  | Other _ _ => true
  end.

(** The parameters [convert_function_to_tool] starts from, line 123. *)
Definition no_parameters : Parameters :=
  {| params_type := "object"; properties := []; required := [] |}.

(** The items of [func.__annotations__] the loop does not skip. *)
Definition declared (items : list (string * annotation))
  : list (string * annotation) :=
  filter (fun item => negb (fst item =? "return")%string) items.

(** [list(d)]: the keys of a dict, in its order *)
Definition keys {V : Type} (d : list (string * V)) : list string :=
  map fst d.

(** An entry of ['properties'] whose description is not empty *)
Definition described (kv : string * Property) : Prop :=
  prop_description (snd kv) <> "".

(** No line of the section begins as the line of [param_name] does. *)
Definition no_description_line (param_name args_section : string) : bool :=
  forallb (fun line => negb (describes param_name (Str.strip line)))
    (Str.split Str.nl args_section).

(** ** Example callables *)

(** A function whose text is missing, one whose text has no section, and
    one whose second parameter is not described. *)
Definition undocumented : Func.t :=
  {| Func.__name__ := "f";
     Func.__doc__ := None;
     Func.__annotations__ := [("a", T_int)];
     Func.co_varnames := ["a"] |}.

Definition no_section : Func.t :=
  {| Func.__name__ := "f";
     Func.__doc__ := Some "Add one to a number.";
     Func.__annotations__ := [("a", T_int)];
     Func.co_varnames := ["a"] |}.

Definition second_undescribed : Func.t :=
  {| Func.__name__ := "add";
     Func.__doc__ := Some "Add two numbers.

    Args:
        a: First number
    Returns:
        int: the sum
    ";
     Func.__annotations__ := [("a", T_int); ("b", T_int); ("return", T_int)];
     Func.co_varnames := ["a"; "b"] |}.

(** A class the table does not know. *)
Definition Foo : annotation := a_class (Other "Foo" []).

(** A function whose first parameter has a class the table does not know
    and whose second parameter is not described. *)
Definition unmappable_first : Func.t :=
  {| Func.__name__ := "scale";
     Func.__doc__ := Some "Scale a thing.

    Args:
        thing: What to scale
    ";
     Func.__annotations__ := [("thing", Foo); ("factor", T_int)];
     Func.co_varnames := ["thing"; "factor"] |}.

(** A function whose parameter is described on a line without a colon. *)
Definition no_colon : Func.t :=
  {| Func.__name__ := "double";
     Func.__doc__ := Some "Double a number.

    Args:
        x the number to double
    ";
     Func.__annotations__ := [("x", T_int)];
     Func.co_varnames := ["x"] |}.

(** A function with a required and an optional parameter. *)
Definition add_two : Func.t :=
  {| Func.__name__ := "add";
     Func.__doc__ := Some "Add two numbers.

    Args:
        a: First number
        b (str): Second number, if any
    Returns:
        int: the sum
    ";
     Func.__annotations__ :=
       [("a", T_int); ("b", Optional T_str); ("return", T_int)];
     Func.co_varnames := ["a"; "b"] |}.

Definition add_two_dict : ToolDict :=
  {| tool_type := "function";
     function :=
       {| name := "add";
          description := "Add two numbers.";
          parameters :=
            {| params_type := "object";
               properties :=
                 [("a", {| prop_type := JStr "integer";
                           prop_description := "First number" |});
                  ("b", {| prop_type := JStr "string";
                           prop_description := "Second number, if any" |})];
               required := ["a"] |};
          return_type := Some (JStr "integer") |} |}.

(** A function that returns nothing, annotated with [-> None]. *)
Definition returns_nothing : Func.t :=
  {| Func.__name__ := "log";
     Func.__doc__ := Some "Log a message.

    Args:
        message: The text to log
    ";
     Func.__annotations__ := [("message", T_str); ("return", Atom a_None)];
     Func.co_varnames := ["message"] |}.

Definition returns_nothing_dict : ToolDict :=
  {| tool_type := "function";
     function :=
       {| name := "log";
          description := "Log a message.";
          parameters :=
            {| params_type := "object";
               properties :=
                 [("message", {| prop_type := JStr "string";
                                 prop_description := "The text to log" |})];
               required := ["message"] |};
          return_type := None |} |}.

(** [func] with the parameter [x] taken out of its declaration. *)
Definition without_parameter (x : string) (func : Func.t) : Func.t :=
  {| Func.__name__ := Func.__name__ func;
     Func.__doc__ := Func.__doc__ func;
     Func.__annotations__ := Func.__annotations__ func;
     Func.co_varnames := remove string_dec x (Func.co_varnames func) |}.

(** A function whose second parameter is described and not annotated. *)
Definition half_annotated : Func.t :=
  {| Func.__name__ := "add";
     Func.__doc__ := Some "Add two numbers.

    Args:
        a: First number
        b: Second number
    ";
     Func.__annotations__ := [("a", T_int)];
     Func.co_varnames := ["a"; "b"] |}.

Definition half_annotated_dict : ToolDict :=
  {| tool_type := "function";
     function :=
       {| name := "add";
          description := "Add two numbers.";
          parameters :=
            {| params_type := "object";
               properties :=
                 [("a", {| prop_type := JStr "integer";
                           prop_description := "First number" |})];
               required := ["a"] |};
          return_type := None |} |}.

(** Raw data the validator of the examples rejects. *)
Definition junk : tool_item string := not_callable "junk".

(** The kind that the table, or lines 69 and 71, fix for an annotation
    that is a class of the table or a parameterized container. *)
Inductive concrete_kind : annotation -> string -> Prop :=
| ck_class (c : pyclass) (kind : string) :
    In (a_class c, kind) TYPE_MAP ->
    concrete_kind (Atom (a_class c)) kind
| ck_array (c : pyclass) (inner : list annotation) :
    subscriptable c = true ->
    array_like c = true ->
    concrete_kind (Subscript (a_class c) inner) "array"
| ck_object (c : pyclass) (inner : list annotation) :
    subscriptable c = true ->
    array_like c = false ->
    mapping_like c = true ->
    concrete_kind (Subscript (a_class c) inner) "object".

(** A function annotated with [-> type(None)]. *)
Definition returns_NoneType : Func.t :=
  {| Func.__name__ := "log";
     Func.__doc__ := Some "Log a message.

    Args:
        message: The text to log
    ";
     Func.__annotations__ := [("message", T_str); ("return", Atom NoneType)];
     Func.co_varnames := ["message"] |}.

Definition returns_NoneType_dict : ToolDict :=
  {| tool_type := "function";
     function :=
       {| name := "log";
          description := "Log a message.";
          parameters :=
            {| params_type := "object";
               properties :=
                 [("message", {| prop_type := JStr "string";
                                 prop_description := "The text to log" |})];
               required := ["message"] |};
          return_type := Some (JStr "null") |} |}.

(** A function annotated with [-> 'None'], the string. *)
Definition returns_None_string : Func.t :=
  {| Func.__name__ := "log";
     Func.__doc__ := Some "Log a message.

    Args:
        message: The text to log
    ";
     Func.__annotations__ :=
       [("message", Atom (a_str "str")); ("return", Atom (a_str "None"))];
     Func.co_varnames := ["message"] |}.

(** ** The vocabulary of the further properties *)

(** Induction on an annotation with the members of its arguments. *)
Fixpoint annotation_induction (P : annotation -> Prop)
    (HAtom : forall a, P (Atom a))
    (HSubscript : forall origin args,
        Forall P args -> P (Subscript origin args))
    (t : annotation) : P t :=
  match t with
  | Atom a => HAtom a
  | Subscript origin args =>
      HSubscript origin args
        ((fix members (l : list annotation) : Forall P l :=
            match l with
            | [] => Forall_nil P
            | x :: l' =>
                Forall_cons x
                  (annotation_induction P HAtom HSubscript x)
                  (members l')
            end) args)
  end.

(** The kinds of the values of [TYPE_MAP] and of lines 70 and 72. *)
Definition schema_kinds : list string :=
  ["integer"; "string"; "number"; "boolean"; "null"; "array"; "object"].

(** A value made of these kinds only, whose lists have two or more
    elements. *)
#[warnings="-register-all"]
Inductive well_kinded : json_type -> Prop :=
| wk_str (kind : string) :
    In kind schema_kinds -> well_kinded (JStr kind)
| wk_list (l : list json_type) :
    2 <= List.length l -> Forall well_kinded l -> well_kinded (JList l).

(** The string keys of [TYPE_MAP] that are in lower case, with their
    values. *)
Definition lower_case_names : list (string * string) :=
  [ ("int", "integer"); ("str", "string"); ("float", "number");
    ("bool", "boolean"); ("list", "array"); ("tuple", "array");
    ("set", "array"); ("dict", "object") ].

(** What lines 83-88 return or raise for [python_type] once the table is
    read at the lowered [name]. *)
Definition by_name (name : string) (python_type : annotation)
  : result json_type :=
  match TYPE_MAP_get (Atom (a_str (Str.lower name))) with
  | Some kind => Ok (JStr kind)
  | None => Raise (UnmappableTypeError python_type)
  end.

(** A string that does not begin with white space. *)
Definition head_not_space (s : string) : Prop :=
  match s with
  | EmptyString => True
  | String c _ => Str.is_space c = false
  end.

(** A string that [strip] leaves as it is. *)
Definition trimmed (s : string) : Prop := Str.strip s = s.

(** The exceptions that [tool_dict] raises on [func]. *)
Definition raised_before_validation (func : Func.t) (e : exn) : Prop :=
  e = MissingDocumentationError (Func.__name__ func)
  \/ e = MissingSectionError (Func.__name__ func)
  \/ (exists param_name,
         In param_name (keys (declared (Func.__annotations__ func)))
         /\ e = MissingParameterDescriptionError param_name)
  \/ (exists python_type, e = UnmappableTypeError python_type)
  \/ e = IndexError.

(** An entry of ['properties'] is the one line 141 writes for [item]
    from the lines of [args_section]. *)
Definition entry_of (args_section : string) (item : string * annotation)
    (entry : string * Property) : Prop :=
  fst entry = fst item
  /\ _get_json_type (snd item) = Ok (prop_type (snd entry))
  /\ find_description (fst item) (Str.split Str.nl args_section)
     = Ok (Some (prop_description (snd entry))).

(** The members of a union as [typing] builds it: two or more, distinct,
    [None] replaced by [type(None)]. *)
Definition union_members (args : list annotation) : Prop :=
  2 <= List.length args /\ NoDup args /\ ~ In (Atom a_None) args.

(** The characters of a string. *)
Fixpoint chars (s : string) : list ascii :=
  match s with
  | EmptyString => []
  | String c s' => c :: chars s'
  end.

(** The line feed, as a character. *)
Definition LF : ascii := ascii_of_nat 10.

(** * Properties *)

(** ** Strings *)

Lemma split_contains (sep s : string) :
  Str.contains sep s = true ->
  exists a b l, Str.split sep s = a :: b :: l.
Proof.
  unfold Str.split.
  induction s as [|c s IH]; cbn [Str.split_from Str.contains];
    [discriminate|].
  destruct (String.prefix sep (String c s)) eqn:Hp; cbn [orb].
  - intros _.
    destruct (Str.split_from sep (String.length sep - 1) s) as [h t].
    now exists EmptyString, h, t.
  - intros Hc. destruct (IH Hc) as (a & b & l & E).
    destruct (Str.split_from sep 0 s) as [h t].
    injection E as -> ->. now exists (String c a), b, l.
Qed.

Lemma split_nonempty (sep s : string) :
  exists a l, Str.split sep s = a :: l.
Proof.
  unfold Str.split. destruct (Str.split_from sep 0 s) as [h t]. eauto.
Qed.

(** Lines 119-121 raise nothing once ['Args:' in doc_string] holds. *)
Lemma args_section_exists (doc_string : string) :
  Str.contains "Args:" doc_string = true ->
  exists args_section, args_section_of doc_string = Ok args_section.
Proof.
  intros H. unfold args_section_of.
  destruct (split_contains _ _ H) as (a & b & l & ->). simpl.
  destruct (Str.contains "Returns:" b); [|eauto].
  destruct (split_nonempty "Returns:" b) as (x & l' & ->).
  now exists x.
Qed.

(** ** The equations of [_get_json_type] *)

Lemma filter_calls (f : annotation -> result json_type) args :
  filter (fun c => negb (is_none (fst c))) (map (fun a => (a, f a)) args)
  = map (fun a => (a, f a)) (non_none args).
Proof.
  unfold non_none.
  induction args as [|a args IH]; simpl; [reflexivity|].
  destruct (is_none a); simpl; congruence.
Qed.

Lemma _get_json_type_unfold (python_type : annotation) :
  _get_json_type python_type =
  get_json_type_body python_type
    (map (fun arg => (arg, _get_json_type arg)) (get_args python_type)).
Proof. destruct python_type; reflexivity. Qed.

(** Lines 50-59, as the source states them. *)
Lemma _get_json_type_union (python_type : annotation) :
  is_union (get_origin python_type) = true ->
  _get_json_type python_type =
  match non_none (get_args python_type) with
  | [] => Ok (JStr "null")
  | [arg] => _get_json_type arg
  | non_none_args =>
      l <- for_each _get_json_type non_none_args ;; Ok (JList l)
  end.
Proof.
  intros H. rewrite _get_json_type_unfold at 1.
  unfold get_json_type_body. rewrite H, filter_calls.
  destruct (non_none (get_args python_type)) as [|a [|b l]];
    try reflexivity.
  unfold for_each. cbn [map snd]. now rewrite !map_map.
Qed.

(** Lines 62-72 for an origin that is a class: the arguments are not read. *)
Lemma _get_json_type_generic (c : pyclass) (args : list annotation) kind :
  is_union (Some (a_class c)) = false ->
  match TYPE_MAP_get (Atom (a_class c)) with
  | Some base_type => if truthy base_type then Some base_type
                      else subclass_kind (a_class c)
  | None => subclass_kind (a_class c)
  end = Some kind ->
  _get_json_type (Subscript (a_class c) args) = Ok (JStr kind).
Proof.
  intros Hu Hk. rewrite _get_json_type_unfold.
  unfold get_json_type_body. cbn [get_origin]. now rewrite Hu, Hk.
Qed.

Lemma TYPE_MAP_get_other name bases :
  TYPE_MAP_get (Atom (a_class (Other name bases))) = None.
Proof. reflexivity. Qed.

Lemma is_union_other name bases :
  is_union (Some (a_class (Other name bases))) = false.
Proof. reflexivity. Qed.

(** Lines 74-88 on a string: the table is read at the lowered string. *)
Lemma _get_json_type_str (s : string) :
  _get_json_type (a_str s) =
  match TYPE_MAP_get (Atom (a_str (Str.lower s))) with
  | Some kind => Ok (JStr kind)
  | None => Raise (UnmappableTypeError (a_str s))
  end.
Proof.
  rewrite _get_json_type_unfold. unfold get_json_type_body.
  cbn [get_origin is_union __name__ atom_name get_args map].
  destruct (TYPE_MAP_get (Atom (a_str (Str.lower s)))) eqn:E;
    now rewrite E.
Qed.

(** ** Primitive annotations *)

(** The runtime types of the five primitive families. *)
Lemma primitive_types :
  _get_json_type T_int = Ok (JStr "integer")
  /\ _get_json_type T_str = Ok (JStr "string")
  /\ _get_json_type T_float = Ok (JStr "number")
  /\ _get_json_type T_bool = Ok (JStr "boolean")
  /\ _get_json_type (Atom NoneType) = Ok (JStr "null").
Proof. repeat split; reflexivity. Qed.

(** The names [int], [str], [float] and [bool] in any letter case. *)
Lemma primitive_names_any_case (s : string) :
  (Str.lower s = "int" -> _get_json_type (a_str s) = Ok (JStr "integer"))
  /\ (Str.lower s = "str" -> _get_json_type (a_str s) = Ok (JStr "string"))
  /\ (Str.lower s = "float" -> _get_json_type (a_str s) = Ok (JStr "number"))
  /\ (Str.lower s = "bool" -> _get_json_type (a_str s) = Ok (JStr "boolean")).
Proof.
  rewrite _get_json_type_str.
  repeat split; intros ->; reflexivity.
Qed.

Lemma lower_char_not_upper_N (c : ascii) : Str.lower_char c <> "N"%char.
Proof.
  destruct c as [[] [] [] [] [] [] [] []]; vm_compute; discriminate.
Qed.

(** A lowered string is never the key ['None'] of the table. *)
Lemma lower_not_None (s : string) : Str.lower s <> "None".
Proof.
  destruct s as [|c s]; simpl; [discriminate|].
  intros H. injection H as H _. now apply lower_char_not_upper_N in H.
Qed.

Lemma assoc_null (k : atom) :
  assoc k TYPE_MAP = Some "null" -> k = NoneType \/ k = a_str "None".
Proof.
  unfold TYPE_MAP. cbn [assoc].
  repeat match goal with
         | |- context [atom_eq_dec k ?x] =>
             destruct (atom_eq_dec k x) as [->|_]
         end; intros H; try discriminate H; auto.
Qed.

(** No string at all resolves to ['null']. *)
Lemma no_name_resolves_to_null (s : string) :
  _get_json_type (a_str s) <> Ok (JStr "null").
Proof.
  rewrite _get_json_type_str. unfold TYPE_MAP_get.
  destruct (assoc (a_str (Str.lower s)) TYPE_MAP) as [kind|] eqn:E;
    [|discriminate].
  intros H. injection H as ->.
  destruct (assoc_null _ E) as [H|H]; [discriminate H|].
  injection H as H. now apply lower_not_None in H.
Qed.

(** C1.  The class [type(None)] resolves to ['null'], but its name does
    not: a string is lowered before the table is read, and the table holds
    the name as ['None'], so both ['None'] and ['none'] raise the
    [ValueError] of line 88 instead of resolving to ['null'], and so does
    every other spelling: no string resolves to ['null']. *)
Theorem none_name_is_not_mapped :
  _get_json_type (Atom NoneType) = Ok (JStr "null")
  /\ _get_json_type (a_str "None")
     = Raise (UnmappableTypeError (a_str "None"))
  /\ _get_json_type (a_str "none")
     = Raise (UnmappableTypeError (a_str "none"))
  /\ forall s, _get_json_type (a_str s) <> Ok (JStr "null").
Proof.
  split; [reflexivity|]. split; [reflexivity|]. split; [reflexivity|].
  exact no_name_resolves_to_null.
Qed.

(** ** Parameterized containers *)

(** No known class is in both families; a class that derives from a
    sequence or set class and from a mapping class is. *)
Lemma known_families_disjoint (k : known_class) :
  array_like (Known k) = true -> mapping_like (Known k) = false.
Proof. destruct k; vm_compute; congruence. Qed.

Lemma array_like_kind (c : pyclass) (args : list annotation) :
  subscriptable c = true ->
  array_like c = true ->
  _get_json_type (Subscript (a_class c) args) = Ok (JStr "array").
Proof.
  intros Hs H. destruct c as [k|name bases].
  - destruct k; try discriminate H; try discriminate Hs;
      (apply _get_json_type_generic; reflexivity).
  - apply _get_json_type_generic; [reflexivity|].
    rewrite TYPE_MAP_get_other. unfold subclass_kind.
    cbn [is_type origin_issubclass]. fold (array_like (Other name bases)).
    now rewrite H.
Qed.

Lemma mapping_like_kind (c : pyclass) (args : list annotation) :
  array_like c = false ->
  mapping_like c = true ->
  _get_json_type (Subscript (a_class c) args) = Ok (JStr "object").
Proof.
  intros Ha H. destruct c as [k|name bases].
  - destruct k; try discriminate H;
      (apply _get_json_type_generic; reflexivity).
  - apply _get_json_type_generic; [reflexivity|].
    rewrite TYPE_MAP_get_other. unfold subclass_kind.
    cbn [is_type origin_issubclass]. fold (array_like (Other name bases)).
    fold (mapping_like (Other name bases)). now rewrite Ha, H.
Qed.

(** C6.  For a parameterized annotation whose origin is a class [c] (one
    that can be subscripted), whatever its arguments [args] are: when [c]
    is [list], [tuple], [set], [collections.abc.Sequence],
    [collections.abc.Set] or a subclass of one of them, [_get_json_type]
    returns ['array']; when [c] is [dict], [collections.abc.Mapping] or a
    subclass of one of them, and not of the former, it returns ['object'].
    In both cases the outcome is the same for any other arguments. *)
Theorem container_kind (c : pyclass) (args : list annotation) :
  subscriptable c = true ->
  (array_like c = true ->
   _get_json_type (Subscript (a_class c) args) = Ok (JStr "array"))
  /\ (array_like c = false -> mapping_like c = true ->
      _get_json_type (Subscript (a_class c) args) = Ok (JStr "object"))
  /\ (array_like c || mapping_like c = true ->
      forall args',
        _get_json_type (Subscript (a_class c) args')
        = _get_json_type (Subscript (a_class c) args)).
Proof.
  intros Hs.
  split; [now apply array_like_kind|]. split; [apply mapping_like_kind|].
  intros H args'. destruct (array_like c) eqn:Ha.
  - now rewrite !array_like_kind.
  - simpl in H. now rewrite !mapping_like_kind.
Qed.

Lemma container_kind_witness :
  _get_json_type (Subscript (a_class (Known c_list)) [T_int])
  = Ok (JStr "array")
  /\ _get_json_type
       (Subscript (a_class (Known abc_Mapping)) [T_str; Atom (a_str "Foo")])
     = Ok (JStr "object")
  /\ _get_json_type (Subscript (a_class (Known c_frozenset)) [])
     = _get_json_type (Subscript (a_class (Known c_frozenset)) [T_int]).
Proof.
  split; [|split].
  - apply (container_kind (Known c_list) [T_int]); reflexivity.
  - apply (container_kind (Known abc_Mapping) [T_str; Atom (a_str "Foo")]);
      reflexivity.
  - apply (container_kind (Known c_frozenset) [T_int]); reflexivity.
Defined.

(** ** Unions *)

(** An annotation with a fixed kind has it. *)
Lemma concrete_kind_resolves (X : annotation) (kind : string) :
  concrete_kind X kind -> _get_json_type X = Ok (JStr kind).
Proof.
  intros [c k H|c inner Hs Ha|c inner Hs Ha Hm].
  - unfold TYPE_MAP, NoneType in H. simpl in H.
    repeat (destruct H as [H|H];
            [try discriminate H; injection H as <- <-; reflexivity|]).
    contradiction.
  - now apply array_like_kind.
  - now apply mapping_like_kind.
Qed.

(** C4.  For a union (written [Union[...]] or with [|]) whose members other
    than [None] and [type(None)] are the single annotation [X], and which
    has such a member, [_is_optional_type] is true and [_get_json_type] is
    what it is on [X] alone: the kind the table gives [X] when [X] is a
    class of the table, ['array'] or ['object'] when [X] is a
    parameterized container.  For a union whose members are all [None] or
    [type(None)], [_get_json_type] is ['null']. *)
Theorem union_with_absence (origin : atom) (args : list annotation) :
  is_union (Some origin) = true ->
  (forall X,
      non_none args = [X] ->
      existsb is_none args = true ->
      _is_optional_type (Subscript origin args) = true
      /\ _get_json_type (Subscript origin args) = _get_json_type X
      /\ forall kind,
           concrete_kind X kind ->
           _get_json_type (Subscript origin args) = Ok (JStr kind))
  /\ (forallb is_none args = true ->
      _get_json_type (Subscript origin args) = Ok (JStr "null")).
Proof.
  intros Hu. split.
  - intros X HX Hn.
    assert (E : _get_json_type (Subscript origin args) = _get_json_type X).
    { rewrite _get_json_type_union by exact Hu.
      cbn [get_args]. now rewrite HX. }
    split; [|split; [exact E|]].
    + unfold _is_optional_type. cbn [get_origin get_args]. now rewrite Hu.
    + intros kind Hk. rewrite E. now apply concrete_kind_resolves.
  - intros Hall. rewrite _get_json_type_union by exact Hu.
    cbn [get_args].
    replace (non_none args) with (@nil annotation); [reflexivity|].
    unfold non_none. induction args as [|a args IH]; [reflexivity|].
    simpl in Hall |- *. apply andb_prop in Hall as [-> Hall].
    simpl. now apply IH.
Qed.

Lemma union_with_absence_witness :
  (_is_optional_type (Optional T_int) = true
   /\ _get_json_type (Optional T_int) = Ok (JStr "integer"))
  /\ _get_json_type
       (Subscript UnionType
          [Atom NoneType; Subscript (a_class (Known c_dict)) [T_str; T_int]])
     = Ok (JStr "object")
  /\ _get_json_type (Subscript UnionType [Atom NoneType; Atom a_None])
     = Ok (JStr "null").
Proof.
  split; [|split].
  - destruct (proj1 (union_with_absence a_Union [T_int; Atom NoneType]
                       eq_refl) T_int eq_refl eq_refl) as (Ho & _ & Hk).
    split; [exact Ho|]. apply Hk. apply ck_class. simpl. tauto.
  - apply (proj1 (union_with_absence UnionType
                    [Atom NoneType;
                     Subscript (a_class (Known c_dict)) [T_str; T_int]]
                    eq_refl)
             (Subscript (a_class (Known c_dict)) [T_str; T_int])
             eq_refl eq_refl).
    apply ck_object; reflexivity.
  - apply (union_with_absence UnionType [Atom NoneType; Atom a_None]);
      reflexivity.
Defined.

(** C5.  For a union with two or more members other than [None] and
    [type(None)], [_get_json_type] is the list of what it is on each of
    these members, in the order of the members: it raises what the first
    member that raises does, and returns the list of their kinds when each
    has one, which is the list of the kinds the table or lines 69 and 71
    fix when the members are classes of the table or parameterized
    containers.  When no member is [None] or [type(None)],
    [_is_optional_type] is false. *)
Theorem union_of_several (origin : atom) (args : list annotation) :
  is_union (Some origin) = true ->
  2 <= List.length (non_none args) ->
  _get_json_type (Subscript origin args)
  = (l <- for_each _get_json_type (non_none args) ;; Ok (JList l))
  /\ (forall kinds,
         Forall2 (fun arg kind => _get_json_type arg = Ok kind)
           (non_none args) kinds ->
         _get_json_type (Subscript origin args) = Ok (JList kinds))
  /\ (forall kinds,
         Forall2 concrete_kind (non_none args) kinds ->
         _get_json_type (Subscript origin args)
         = Ok (JList (map JStr kinds)))
  /\ (existsb is_none args = false ->
      _is_optional_type (Subscript origin args) = false).
Proof.
  intros Hu Hlen.
  assert (E : _get_json_type (Subscript origin args)
              = (l <- for_each _get_json_type (non_none args) ;;
                 Ok (JList l))).
  { rewrite _get_json_type_union by exact Hu. cbn [get_args].
    destruct (non_none args) as [|a [|b l]]; simpl in Hlen;
      [lia|lia|reflexivity]. }
  assert (R : forall kinds,
             Forall2 (fun arg kind => _get_json_type arg = Ok kind)
               (non_none args) kinds ->
             _get_json_type (Subscript origin args) = Ok (JList kinds)).
  { intros kinds HF. rewrite E. clear E Hlen.
    assert (C : for_each _get_json_type (non_none args) = Ok kinds).
    { unfold for_each.
      induction HF as [|a k l ks Ha _ IH]; [reflexivity|].
      simpl. now rewrite Ha, IH. }
    now rewrite C. }
  split; [exact E|]. split; [exact R|]. split.
  - intros kinds HF. apply R. clear - HF.
    induction HF as [|a k l ks Ha _ IH]; constructor; [|exact IH].
    now apply concrete_kind_resolves.
  - intros Hn. unfold _is_optional_type.
    cbn [get_origin get_args]. now rewrite Hu.
Qed.

Lemma union_of_several_witness :
  _get_json_type (Subscript UnionType [T_int; Atom NoneType; T_str])
  = Ok (JList [JStr "integer"; JStr "string"])
  /\ _get_json_type
       (Subscript a_Union [Subscript (a_class (Known c_list)) [T_int]; T_float])
     = Ok (JList [JStr "array"; JStr "number"])
  /\ _is_optional_type
       (Subscript a_Union [Subscript (a_class (Known c_list)) [T_int]; T_float])
     = false.
Proof.
  split; [|split].
  - destruct (union_of_several UnionType [T_int; Atom NoneType; T_str])
      as (_ & _ & H & _); [reflexivity|simpl; lia|].
    apply (H ["integer"; "string"]).
    repeat constructor; simpl; tauto.
  - destruct (union_of_several a_Union
                [Subscript (a_class (Known c_list)) [T_int]; T_float])
      as (_ & _ & H & _); [reflexivity|simpl; lia|].
    apply (H ["array"; "number"]).
    constructor; [apply ck_array; reflexivity|].
    constructor; [apply ck_class; simpl; tauto|constructor].
  - destruct (union_of_several a_Union
                [Subscript (a_class (Known c_list)) [T_int]; T_float])
      as (_ & _ & _ & H); [reflexivity|simpl; lia|].
    apply H. reflexivity.
Defined.

(** ** The loop over the annotations *)

Lemma bind_Ok {E A B} (r : result_of E A) (k : A -> result_of E B) b :
  (x <- r ;; k x) = Ok b -> exists a, r = Ok a /\ k a = Ok b.
Proof. destruct r as [a|e]; simpl; [eauto|discriminate]. Qed.

Ltac bind_inv H :=
  let a := fresh "a" in
  let Ha := fresh "H" a in
  apply bind_Ok in H as (a & Ha & H).

(** What a turn of the loop that raises nothing has done. *)
Lemma add_parameter_Ok args_section P P' param_name param_type :
  add_parameter args_section P (param_name, param_type) = Ok P' ->
  (param_name = "return" /\ P' = P)
  \/ (param_name <> "return"
      /\ exists param_desc json,
          find_description param_name (Str.split Str.nl args_section)
          = Ok (Some param_desc)
          /\ param_desc <> ""
          /\ _get_json_type param_type = Ok json
          /\ properties P'
             = dict_set param_name
                 {| prop_type := json; prop_description := param_desc |}
                 (properties P)
          /\ required P'
             = (if _is_optional_type param_type then required P
                else required P ++ [param_name])).
Proof.
  unfold add_parameter.
  destruct (String.eqb_spec param_name "return") as [->|Hne].
  - intros H. injection H as <-. now left.
  - intros H. right. split; [exact Hne|].
    bind_inv H. destruct a as [[|c desc]|]; try discriminate H.
    bind_inv H. injection H as <-.
    exists (String c desc), a. cbn [properties required].
    repeat split; try assumption; try discriminate.
    now destruct (_is_optional_type param_type).
Qed.

Lemma dict_set_new {V : Type} (k : string) (v : V) d :
  ~ In k (keys d) -> dict_set k v d = d ++ [(k, v)].
Proof.
  induction d as [|[k' v'] d IH]; simpl; [reflexivity|].
  intros H. destruct (String.eqb_spec k k') as [->|_].
  - exfalso. apply H. now left.
  - f_equal. apply IH. intros Hin. apply H. now right.
Qed.

Lemma keys_dict_set {V : Type} (k : string) (v : V) d x :
  In x (keys (dict_set k v d)) -> x = k \/ In x (keys d).
Proof.
  induction d as [|[k' v'] d IH]; simpl.
  - intros [<-|[]]. now left.
  - destruct (String.eqb_spec k k') as [->|_]; simpl.
    + intros [<-|H]; auto.
    + intros [<-|H]; auto. destruct (IH H); auto.
Qed.

Lemma In_dict_set {V : Type} (k : string) (v : V) d kv :
  In kv (dict_set k v d) -> snd kv = v \/ In kv d.
Proof.
  induction d as [|[k' v'] d IH]; simpl.
  - intros [<-|[]]. now left.
  - destruct (String.eqb_spec k k') as [->|_]; simpl.
    + intros [<-|H]; auto.
    + intros [<-|H]; auto. destruct (IH H); auto.
Qed.

(** The loop writes only keys of the annotations, and only descriptions
    that are not empty. *)
Lemma loop_keys args_section items : forall P P',
  for_loop (add_parameter args_section) P items = Ok P' ->
  (forall x, In x (keys (properties P')) ->
             In x (keys (properties P)) \/ In x (keys (declared items)))
  /\ (forall x, In x (required P') ->
                In x (required P) \/ In x (keys (declared items)))
  /\ (Forall described (properties P) -> Forall described (properties P')).
Proof.
  induction items as [|[n t] items IH]; intros P P' H.
  - injection H as <-. auto.
  - cbn [for_loop] in H. bind_inv H.
    destruct (IH _ _ H) as (IHp & IHr & IHd). clear IH H.
    apply add_parameter_Ok in Ha
      as [[-> ->]|(Hne & desc & json & _ & Hd & _ & Hp & Hr)].
    + auto.
    + unfold declared. cbn [filter fst].
      apply String.eqb_neq in Hne. rewrite Hne. cbn [negb keys map fst].
      fold (declared items). fold (keys (declared items)).
      split; [|split].
      * intros x Hx. destruct (IHp x Hx) as [Hx'|]; [|simpl; auto].
        rewrite Hp in Hx'. apply keys_dict_set in Hx' as [->|]; simpl; auto.
      * intros x Hx. destruct (IHr x Hx) as [Hx'|]; [|simpl; auto].
        rewrite Hr in Hx'. destruct (_is_optional_type t); auto.
        apply in_app_or in Hx' as [|[<-|[]]]; simpl; auto.
      * intros HP. apply IHd. rewrite Hp. apply Forall_forall.
        intros kv Hkv. apply In_dict_set in Hkv as [E|Hkv].
        -- unfold described. now rewrite E.
        -- revert kv Hkv. now apply Forall_forall.
Qed.

Lemma NoDup_keys_filter {V : Type} (f : string * V -> bool) d :
  NoDup (keys d) -> NoDup (keys (filter f d)).
Proof.
  induction d as [|kv d IH]; simpl; [auto|].
  intros H. inversion H as [|? ? Hn Hd]; subst.
  destruct (f kv); simpl; [|auto].
  constructor; [|auto]. intros Hin. apply Hn.
  unfold keys in *. apply in_map_iff in Hin as (kv' & E & Hin).
  apply filter_In in Hin as [Hin _]. apply in_map_iff. eauto.
Qed.

(** With distinct keys, as those of a dict are, the loop appends: a
    property for each declared item, and its name to [required] when its
    annotation is not optional. *)
Lemma loop_appends args_section items : forall P P',
  for_loop (add_parameter args_section) P items = Ok P' ->
  NoDup (keys (properties P) ++ keys (declared items)) ->
  keys (properties P') = keys (properties P) ++ keys (declared items)
  /\ required P'
     = required P
       ++ keys (filter (fun item => negb (_is_optional_type (snd item)))
                  (declared items)).
Proof.
  induction items as [|[n t] items IH]; intros P P' H Hnd.
  - injection H as <-. simpl. now rewrite !app_nil_r.
  - cbn [for_loop] in H. bind_inv H.
    apply add_parameter_Ok in Ha
      as [[-> ->]|(Hne & desc & json & _ & _ & _ & Hp & Hr)].
    + now apply IH.
    + revert Hnd. unfold declared. cbn [filter fst].
      apply String.eqb_neq in Hne. rewrite Hne. cbn [negb keys map fst snd].
      fold (declared items). fold (keys (declared items)).
      fold (keys (properties P)). intros Hnd.
      assert (Hnew : ~ In n (keys (properties P))).
      { intros Hin. apply NoDup_remove_2 in Hnd. apply Hnd.
        apply in_or_app. now left. }
      rewrite (dict_set_new _ _ _ Hnew) in Hp.
      assert (Hk : keys (properties a) = keys (properties P) ++ [n]).
      { rewrite Hp. unfold keys. now rewrite map_app. }
      destruct (IH _ _ H) as [IHp IHr].
      { rewrite Hk, <- app_assoc. simpl.
        apply NoDup_remove_1 in Hnd as Hnd'.
        apply NoDup_remove_2 in Hnd.
        clear - Hnd Hnd'. revert Hnd Hnd'.
        generalize (keys (properties P)) (keys (declared items)).
        intros l1 l2 Hn Hd. induction l1 as [|x l1 IHl]; simpl in *.
        - now constructor.
        - inversion Hd as [|? ? Hx Hd']; subst. constructor.
          + intros Hin. apply in_app_or in Hin as [|[<-|Hin]].
            * apply Hx. apply in_or_app. now left.
            * apply Hn. now left.
            * apply Hx. apply in_or_app. now right.
          + apply IHl; [|exact Hd']. intros Hin. apply Hn. now right. }
      split.
      * rewrite IHp, Hk, <- app_assoc. reflexivity.
      * rewrite IHr, Hr. cbn [filter snd].
        destruct (_is_optional_type t); cbn [negb].
        -- reflexivity.
        -- cbn [keys map fst]. now rewrite <- app_assoc.
Qed.

(** ** [convert_function_to_tool] *)

(** What a call of [tool_dict] that raises nothing has gone through. *)
Lemma tool_dict_Ok (func : Func.t) (d : ToolDict) :
  tool_dict func = Ok d ->
  exists doc_string args_section,
    Func.__doc__ func = Some doc_string
    /\ doc_string <> ""
    /\ Str.contains "Args:" doc_string = true
    /\ args_section_of doc_string = Ok args_section
    /\ for_loop (add_parameter args_section) no_parameters
         (Func.__annotations__ func)
       = Ok (parameters (function d))
    /\ return_type_of (Func.__annotations__ func)
       = Ok (return_type (function d)).
Proof.
  unfold tool_dict.
  destruct (Func.__doc__ func) as [[|c doc]|]; try discriminate.
  destruct (Str.contains "Args:" (String c doc)) eqn:Hc;
    cbn [negb]; [|discriminate].
  intros H. bind_inv H. bind_inv H. bind_inv H. injection H as <-.
  exists (String c doc), a. cbn [function parameters return_type].
  repeat split; try assumption. discriminate.
Qed.

Lemma for_loop_app {S X : Type} (body : S -> X -> result S) xs ys :
  forall state,
    for_loop body state (xs ++ ys)
    = (state' <- for_loop body state xs ;; for_loop body state' ys).
Proof.
  induction xs as [|x xs IH]; intros state; simpl; [reflexivity|].
  destruct (body state x); simpl; [apply IH|reflexivity].
Qed.

Lemma find_description_none (param_name : string) lines :
  forallb (fun line => negb (describes param_name (Str.strip line))) lines
  = true ->
  find_description param_name lines = Ok None.
Proof.
  induction lines as [|line lines IH]; simpl; [reflexivity|].
  intros H. apply andb_prop in H as [H1 H2].
  apply negb_true_iff in H1. rewrite H1. now apply IH.
Qed.

Section Compile.

Variable Tool : Type.
Variable Raw : Type.
Variable model_validate : validated Raw -> result Tool.

Local Abbreviation compile :=
  (convert_function_to_tool Tool Raw model_validate).

(** The dictionary [tool_dict] builds is what the validator is given,
    and what [tool_dict] raises is raised. *)
Lemma convert_function_to_tool_eq (func : Func.t) :
  compile func =
  match tool_dict func with
  | Ok d => model_validate (built d)
  | Raise e => Raise e
  end.
Proof. reflexivity. Qed.

(** C2, as the code has it.  Without documentation text the call raises
    the [ValueError] on the missing docstring; with a text that does not
    contain ['Args:'] it raises the one on the missing section; and when
    the parameters before [param_name] in [func.__annotations__] are
    processed without an exception and no line of the section begins as
    a line of [param_name], it raises the one on the missing description
    of [param_name]. *)
Theorem documentation_errors (func : Func.t) :
  (Func.__doc__ func = None \/ Func.__doc__ func = Some "" ->
   compile func = Raise (MissingDocumentationError (Func.__name__ func)))
  /\ (forall doc_string,
         Func.__doc__ func = Some doc_string ->
         doc_string <> "" ->
         Str.contains "Args:" doc_string = false ->
         compile func = Raise (MissingSectionError (Func.__name__ func)))
  /\ (forall doc_string args_section before param_name param_type after P,
         Func.__doc__ func = Some doc_string ->
         doc_string <> "" ->
         Str.contains "Args:" doc_string = true ->
         args_section_of doc_string = Ok args_section ->
         Func.__annotations__ func
         = before ++ (param_name, param_type) :: after ->
         param_name <> "return" ->
         for_loop (add_parameter args_section) no_parameters before
         = Ok P ->
         no_description_line param_name args_section = true ->
         compile func
         = Raise (MissingParameterDescriptionError param_name)).
Proof.
  unfold convert_function_to_tool, tool_dict. split; [|split].
  - now intros [->| ->].
  - intros doc Hd Hne Hc. rewrite Hd, Hc.
    destruct doc; [contradiction|reflexivity].
  - intros doc sec before p t after P Hd Hne Hc Hs Ha Hp Hb Hl.
    rewrite Hd, Hc, Hs, Ha. destruct doc; [contradiction|].
    cbn [negb bind]. fold no_parameters.
    rewrite for_loop_app, Hb. cbn [bind for_loop].
    unfold add_parameter. apply String.eqb_neq in Hp. rewrite Hp.
    unfold no_description_line in Hl.
    now rewrite (find_description_none _ _ Hl).
Qed.

End Compile.

Lemma documentation_errors_witness :
  convert_function_to_tool _ _ accept_built undocumented
  = Raise (MissingDocumentationError "f")
  /\ convert_function_to_tool _ _ accept_built no_section
     = Raise (MissingSectionError "f")
  /\ convert_function_to_tool _ _ accept_built second_undescribed
     = Raise (MissingParameterDescriptionError "b").
Proof.
  split; [|split].
  - apply (documentation_errors _ _ accept_built undocumented).
    left. reflexivity.
  - apply (proj1 (proj2 (documentation_errors _ _ accept_built no_section))
             "Add one to a number.");
      [reflexivity|discriminate|reflexivity].
  - destruct (documentation_errors _ _ accept_built second_undescribed)
      as (_ & _ & H).
    eapply (H _ _ [("a", T_int)] "b" T_int [("return", T_int)]);
      [reflexivity|discriminate|reflexivity|reflexivity|reflexivity
      |discriminate|reflexivity|reflexivity].
Defined.

(** C2 as stated fails on [unmappable_first]: the text is present and has
    its section, the declared parameter [factor] is the first one without
    a description line there, and yet the call does not raise the
    [ValueError] on the description of [factor]: it raises the one of line
    88 on the annotation of [thing], which the loop reaches first. *)
Lemma documentation_errors_counterexample :
  (exists doc_string args_section,
      Func.__doc__ unmappable_first = Some doc_string
      /\ Str.contains "Args:" doc_string = true
      /\ args_section_of doc_string = Ok args_section
      /\ In ("factor", T_int) (Func.__annotations__ unmappable_first)
      /\ no_description_line "factor" args_section = true
      /\ no_description_line "thing" args_section = false)
  /\ convert_function_to_tool _ _ accept_built unmappable_first
     = Raise (UnmappableTypeError Foo)
  /\ convert_function_to_tool _ _ accept_built unmappable_first
     <> Raise (MissingParameterDescriptionError "factor").
Proof.
  split; [|split].
  - do 2 eexists. repeat split; try reflexivity. simpl. auto.
  - reflexivity.
  - discriminate.
Qed.

(** C3.  On [no_colon] the call raises an [IndexError], whatever the
    validator is: the line of [x] begins with the name and a space, which
    line 134 accepts, and has no colon, so that [line.split(':', 1)] has
    one element and line 135 reads its second. *)
Theorem index_error_is_reachable (Tool Raw : Type)
    (model_validate : validated Raw -> result Tool) :
  convert_function_to_tool Tool Raw model_validate no_colon
  = Raise IndexError.
Proof. reflexivity. Qed.

(** C7.  In the dictionary handed to the validator, the keys of
    ['properties'] are the names of [func.__annotations__] other than
    ['return'], in their order; ['required'] is the list of those whose
    annotation is not optional, in the same order; and no description is
    empty.  The keys of [func.__annotations__], a dict, are distinct. *)
Theorem descriptor_invariant (func : Func.t) (d : ToolDict) :
  NoDup (keys (Func.__annotations__ func)) ->
  tool_dict func = Ok d ->
  let items := declared (Func.__annotations__ func) in
  let params := parameters (function d) in
  keys (properties params) = keys items
  /\ required params
     = keys (filter (fun item => negb (_is_optional_type (snd item))) items)
  /\ Forall described (properties params).
Proof.
  intros Hnd H items params.
  apply tool_dict_Ok in H as (doc & sec & _ & _ & _ & _ & Hloop & _).
  fold params in Hloop.
  destruct (loop_appends _ _ _ _ Hloop) as [Hp Hr].
  { simpl. now apply NoDup_keys_filter. }
  destruct (loop_keys _ _ _ _ Hloop) as (_ & _ & Hd).
  split; [exact Hp|]. split; [exact Hr|]. apply Hd. constructor.
Qed.

Example tool_dict_add_two : tool_dict add_two = Ok add_two_dict.
Proof. reflexivity. Qed.

Lemma NoDup_keys_add_two : NoDup (keys (Func.__annotations__ add_two)).
Proof.
  repeat constructor; simpl; intuition discriminate.
Defined.

Lemma descriptor_invariant_witness :
  keys (properties (parameters (function add_two_dict))) = ["a"; "b"]
  /\ required (parameters (function add_two_dict)) = ["a"]
  /\ Forall described (properties (parameters (function add_two_dict))).
Proof.
  apply (descriptor_invariant add_two add_two_dict).
  - exact NoDup_keys_add_two.
  - reflexivity.
Defined.

(** C9, as the code has it.  When the call builds a dictionary, its
    ['return_type'] is [None] if [func.__annotations__] has no key
    ['return'] or has the value [None] there, which is what [-> None]
    leaves, and line 160 tests; it is otherwise what [_get_json_type]
    returns on the annotation found there, the class [type(None)]
    included. *)
Theorem return_type_resolved (func : Func.t) (d : ToolDict) :
  tool_dict func = Ok d ->
  match dict_get "return" (Func.__annotations__ func) with
  | None => return_type (function d) = None
  | Some (Atom a_None) => return_type (function d) = None
  | Some ret =>
      exists json,
        _get_json_type ret = Ok json
        /\ return_type (function d) = Some json
  end.
Proof.
  intros H.
  apply tool_dict_Ok in H as (doc & sec & _ & _ & _ & _ & _ & Hret).
  unfold return_type_of in Hret.
  destruct (dict_get "return" (Func.__annotations__ func)) as [ret|];
    [|now injection Hret].
  destruct ret as [[]|];
    try (bind_inv Hret; injection Hret as <-; now exists a).
  now injection Hret.
Qed.

Lemma return_type_resolved_witness :
  (exists json,
      _get_json_type T_int = Ok json
      /\ return_type (function add_two_dict) = Some json)
  /\ return_type (function returns_nothing_dict) = None.
Proof.
  split.
  - apply (return_type_resolved add_two add_two_dict). reflexivity.
  - apply (return_type_resolved returns_nothing returns_nothing_dict).
    reflexivity.
Defined.

(** C9 as stated fails on [returns_NoneType]: its return annotation is
    the class [type(None)], which lines 53 and 95 take for the mark of
    absence, and yet the ['return_type'] of the dictionary built is not
    [None]: it is the kind ['null']. *)
Lemma return_type_counterexample :
  dict_get "return" (Func.__annotations__ returns_NoneType)
  = Some (Atom NoneType)
  /\ is_none (Atom NoneType) = true
  /\ tool_dict returns_NoneType = Ok returns_NoneType_dict
  /\ return_type (function returns_NoneType_dict) = Some (JStr "null")
  /\ return_type (function returns_NoneType_dict) <> None.
Proof. repeat split; discriminate. Qed.

(** With the string ['None'] for the return annotation no dictionary is
    built: the call raises the [ValueError] of line 88. *)
Example return_annotation_None_string :
  tool_dict returns_None_string
  = Raise (UnmappableTypeError (Atom (a_str "None"))).
Proof. reflexivity. Qed.

(** An annotation [-> type(None)], unlike [-> None], is resolved. *)
Example return_type_of_NoneType :
  return_type_of [("return", Atom NoneType)] = Ok (Some (JStr "null"))
  /\ return_type_of [("return", Atom a_None)] = Ok None.
Proof. split; reflexivity. Qed.

Lemma keys_declared items x :
  In x (keys (declared items)) -> In x (keys items).
Proof.
  unfold keys, declared. intros H.
  apply in_map_iff in H as (kv & E & H). apply filter_In in H as [H _].
  apply in_map_iff. eauto.
Qed.

(** C10.  A declared parameter [x] that is no key of
    [func.__annotations__] changes nothing: the call returns or raises what
    it does for the function declared without [x], whatever the text says
    of [x], and a dictionary it builds has [x] neither in ['properties']
    nor in ['required']. *)
Theorem unannotated_parameter_omitted (func : Func.t) (x : string) :
  In x (Func.co_varnames func) ->
  ~ In x (keys (Func.__annotations__ func)) ->
  tool_dict func = tool_dict (without_parameter x func)
  /\ forall d,
      tool_dict func = Ok d ->
      ~ In x (keys (properties (parameters (function d))))
      /\ ~ In x (required (parameters (function d))).
Proof.
  intros _ Hx. split; [reflexivity|].
  intros d H.
  apply tool_dict_Ok in H as (doc & sec & _ & _ & _ & _ & Hloop & _).
  destruct (loop_keys _ _ _ _ Hloop) as (Hp & Hr & _).
  split; intros Hin.
  - destruct (Hp x Hin) as [[]|H]. now apply Hx, keys_declared.
  - destruct (Hr x Hin) as [[]|H]. now apply Hx, keys_declared.
Qed.

Lemma unannotated_parameter_omitted_witness :
  tool_dict half_annotated = tool_dict (without_parameter "b" half_annotated)
  /\ forall d,
      tool_dict half_annotated = Ok d ->
      ~ In "b" (keys (properties (parameters (function d))))
      /\ ~ In "b" (required (parameters (function d))).
Proof.
  apply (unannotated_parameter_omitted half_annotated "b").
  - simpl. auto.
  - simpl. intros [H|[]]. discriminate H.
Defined.

Example tool_dict_half_annotated :
  tool_dict half_annotated = Ok half_annotated_dict.
Proof. reflexivity. Qed.

(** ** [process_tools] *)

Section Normalize.

Variable Tool : Type.
Variable Raw : Type.
Variable model_validate : validated Raw -> result Tool.

Local Abbreviation normalize := (process_tools Tool Raw model_validate).
Local Abbreviation route := (route Tool Raw model_validate).

Lemma process_one_eq processed_tools (tool : tool_item Raw) :
  process_one Tool Raw model_validate processed_tools tool
  = (t <- route tool ;; Ok (processed_tools ++ [t])).
Proof. destruct tool; reflexivity. Qed.

Lemma process_loop (tools : list (tool_item Raw)) :
  forall processed_tools,
    for_loop (process_one Tool Raw model_validate) processed_tools tools
    = (l <- for_each route tools ;; Ok (processed_tools ++ l)).
Proof.
  unfold for_each.
  induction tools as [|tool tools IH]; intros acc.
  - cbn. now rewrite app_nil_r.
  - cbn [for_loop map collect]. rewrite process_one_eq.
    destruct (route tool) as [t|e]; cbn [bind]; [|reflexivity].
    rewrite IH.
    destruct (collect _); cbn [bind]; [|reflexivity].
    now rewrite <- app_assoc.
Qed.

Lemma for_each_Ok {A B : Type} (f : A -> result B) xs ys :
  Forall2 (fun x y => f x = Ok y) xs ys -> for_each f xs = Ok ys.
Proof.
  unfold for_each.
  induction 1 as [|x y xs ys Hx _ IH]; simpl; [reflexivity|].
  now rewrite Hx, IH.
Qed.

Lemma for_each_Raise {A B : Type} (f : A -> result B) xs ys x e after :
  Forall2 (fun x y => f x = Ok y) xs ys ->
  f x = Raise e ->
  for_each f (xs ++ x :: after) = Raise e.
Proof.
  unfold for_each.
  induction 1 as [|x' y xs ys Hx _ IH]; simpl; intros He.
  - now rewrite He.
  - rewrite Hx. simpl. now rewrite IH.
Qed.

(** C8.  Without tools, or with an empty sequence, the result is the
    empty list.  Otherwise each item is routed, in the order of the
    input, and the result is the list of the outcomes in that order:
    when every item has one, that list; and when an item raises after
    the ones before it had an outcome, what this item raises, and no
    list. *)
Theorem process_tools_in_order :
  normalize None = Ok []
  /\ normalize (Some []) = Ok []
  /\ (forall tools, normalize (Some tools) = for_each route tools)
  /\ (forall tools outcomes,
         Forall2 (fun tool t => route tool = Ok t) tools outcomes ->
         normalize (Some tools) = Ok outcomes)
  /\ (forall before outcomes tool e after,
         Forall2 (fun tool t => route tool = Ok t) before outcomes ->
         route tool = Raise e ->
         normalize (Some (before ++ tool :: after)) = Raise e).
Proof.
  assert (E : forall tools, normalize (Some tools) = for_each route tools).
  { intros [|tool tools]; [reflexivity|].
    unfold normalize, process_tools. rewrite process_loop.
    now destruct (for_each route (tool :: tools)). }
  split; [reflexivity|]. split; [reflexivity|]. split; [exact E|].
  split.
  - intros tools outcomes H. rewrite E. now apply for_each_Ok.
  - intros before outcomes tool e after H He. rewrite E.
    now apply for_each_Raise with (ys := outcomes).
Qed.

End Normalize.

Lemma process_tools_in_order_witness :
  process_tools _ _ accept_built (Some [is_callable add_two;
                                       is_callable half_annotated])
  = Ok [add_two_dict; half_annotated_dict]
  /\ process_tools _ _ accept_built (Some [is_callable add_two; junk;
                                          is_callable no_colon])
     = Raise (ValidationError "junk").
Proof.
  destruct (process_tools_in_order _ _ accept_built)
    as (_ & _ & _ & Hok & Hraise).
  split.
  - apply Hok. repeat constructor.
  - apply (Hraise [is_callable add_two] [add_two_dict] junk
             (ValidationError "junk") [is_callable no_colon]).
    + repeat constructor.
    + reflexivity.
Defined.

(** * Further properties *)

(** ** String annotations *)

Lemma lower_char_not_upper (c : ascii) :
  let n := nat_of_ascii (Str.lower_char c) in
  (n <? 65) || (90 <? n) = true.
Proof.
  destruct c as [[] [] [] [] [] [] [] []]; vm_compute; reflexivity.
Qed.

(** A lowered string does not begin with a capital letter. *)
Lemma lower_head (s r : string) (c : ascii) :
  Str.lower s = String c r ->
  (nat_of_ascii c <? 65) || (90 <? nat_of_ascii c) = true.
Proof.
  destruct s as [|c' s]; simpl; [discriminate|].
  intros H. injection H as <- _. apply lower_char_not_upper.
Qed.

Ltac not_lowered H :=
  apply lower_head in H; vm_compute in H; discriminate H.

(** X1.  A string annotation has a kind exactly when, lowered, it is one of
    [int], [str], [float], [bool], [list], [tuple], [set] and [dict], and
    the kind is the one the table gives to that lower-case name; every
    other string raises.  So the entries of the table whose key has a
    capital are never read for a string: ['None'], ['Sequence'],
    ['Mapping'] and ['Any'] raise, and ['List'], ['Set'] and ['Dict'] have
    their kind from the entries ['list'], ['set'] and ['dict']. *)
Theorem string_annotation_kinds (s : string) (json : json_type) :
  _get_json_type (a_str s) = Ok json
  <-> exists kind,
        json = JStr kind /\ In (Str.lower s, kind) lower_case_names.
Proof.
  rewrite _get_json_type_str. unfold TYPE_MAP_get. split.
  - set (k := a_str (Str.lower s)). unfold TYPE_MAP. cbn [assoc].
    repeat match goal with
           | |- context [atom_eq_dec k ?x] =>
               destruct (atom_eq_dec k x) as [E|_];
               [ try discriminate E; injection E as E | ]
           end;
      try (intros H; injection H as <-; eexists; split; [reflexivity|];
           rewrite E; simpl; tauto);
      try (exfalso; not_lowered E).
    discriminate.
  - intros (kind & -> & Hin). simpl in Hin.
    repeat destruct Hin as [Hin|Hin]; try contradiction;
      injection Hin as E1 E2; rewrite <- E1, <- E2; reflexivity.
Qed.

(** ** The values and the exceptions of [_get_json_type] *)

Lemma assoc_kinds (k : atom) (kind : string) :
  assoc k TYPE_MAP = Some kind -> In kind schema_kinds.
Proof.
  unfold TYPE_MAP. cbn [assoc].
  repeat match goal with
         | |- context [atom_eq_dec k ?x] =>
             destruct (atom_eq_dec k x) as [_|_]
         end;
    intros H; try discriminate H; injection H as <-; simpl; tauto.
Qed.

Lemma TYPE_MAP_get_kinds (key : annotation) (kind : string) :
  TYPE_MAP_get key = Some kind -> In kind schema_kinds.
Proof.
  destruct key; simpl; [apply assoc_kinds|discriminate].
Qed.

Lemma subclass_kind_kinds (origin : atom) (kind : string) :
  subclass_kind origin = Some kind -> In kind schema_kinds.
Proof.
  unfold subclass_kind.
  repeat match goal with |- context [if ?b then _ else _] => destruct b end;
    intros H; try discriminate H; injection H as <-; simpl; tauto.
Qed.

(** Lines 62-88: outside the unions the outcome is a single kind or the
    [ValueError] of line 88 on the annotation itself. *)
Lemma _get_json_type_not_union (python_type : annotation) :
  is_union (get_origin python_type) = false ->
  (exists kind,
      In kind schema_kinds /\ _get_json_type python_type = Ok (JStr kind))
  \/ _get_json_type python_type = Raise (UnmappableTypeError python_type).
Proof.
  intros Hu. rewrite _get_json_type_unfold. unfold get_json_type_body.
  rewrite Hu.
  match goal with
  | |- context [match ?g with Some kind => Ok (JStr kind) | None => _ end] =>
      destruct g as [kind|] eqn:Eg
  end.
  - left. exists kind. split; [|reflexivity].
    destruct (get_origin python_type) as [o|]; [|discriminate].
    destruct (TYPE_MAP_get (Atom o)) as [base|] eqn:Eo.
    + destruct (truthy base).
      * injection Eg as <-. now apply TYPE_MAP_get_kinds in Eo.
      * now apply subclass_kind_kinds in Eg.
    + now apply subclass_kind_kinds in Eg.
  - match goal with
    | |- context [match TYPE_MAP_get ?k with Some _ => _ | None => _ end] =>
        destruct (TYPE_MAP_get k) as [kind|] eqn:Ek
    end.
    + left. exists kind. split; [|reflexivity].
      now apply TYPE_MAP_get_kinds in Ek.
    + now right.
Qed.

Lemma collect_Ok {A B : Type} (f : A -> result B) xs : forall ys,
  collect (map f xs) = Ok ys -> Forall2 (fun x y => f x = Ok y) xs ys.
Proof.
  induction xs as [|x xs IH]; simpl; intros ys H.
  - injection H as <-. constructor.
  - destruct (f x) as [y|e] eqn:Ex; simpl in H; [|discriminate].
    destruct (collect (map f xs)) as [l|e]; simpl in H; [|discriminate].
    injection H as <-. constructor; auto.
Qed.

Lemma collect_Raise {A B : Type} (f : A -> result B) xs e :
  collect (map f xs) = Raise e -> exists x, In x xs /\ f x = Raise e.
Proof.
  induction xs as [|x xs IH]; simpl; [discriminate|].
  destruct (f x) as [y|e'] eqn:Ex; simpl.
  - destruct (collect (map f xs)) as [l|e'']; simpl; [discriminate|].
    intros H. injection H as ->. destruct IH as (x' & Hin & Hx'); eauto.
  - intros H. injection H as ->. eauto.
Qed.

Lemma non_none_In (args : list annotation) (arg : annotation) :
  In arg (non_none args) -> In arg args.
Proof. unfold non_none. intros H. now apply filter_In in H. Qed.

(** X2.  Whatever the annotation, a value [_get_json_type] returns is made
    of the seven kinds ['integer'], ['string'], ['number'], ['boolean'],
    ['null'], ['array'] and ['object'] only, and a list in it has two or
    more elements. *)
Theorem kinds_are_closed (python_type : annotation) (json : json_type) :
  _get_json_type python_type = Ok json -> well_kinded json.
Proof.
  revert json.
  induction python_type as [a|origin args IH] using annotation_induction;
    intros json H.
  - destruct (_get_json_type_not_union (Atom a)) as [(k & Hk & E)|E].
    + now destruct a as [| | | | | |[]].
    + rewrite E in H. injection H as <-. now constructor.
    + rewrite E in H. discriminate H.
  - destruct (is_union (Some origin)) eqn:Hu.
    + rewrite _get_json_type_union in H by exact Hu. cbn [get_args] in H.
      assert (IH' : Forall (fun arg => forall json,
                       _get_json_type arg = Ok json -> well_kinded json)
                      (non_none args)).
      { apply Forall_forall. intros arg Hin.
        apply non_none_In in Hin. rewrite Forall_forall in IH.
        now apply IH. }
      destruct (non_none args) as [|x [|y l]] eqn:En.
      * injection H as <-. constructor. simpl. tauto.
      * inversion IH' as [|? ? Hx _]; subst. now apply Hx.
      * unfold for_each in H.
        match type of H with
        | context [collect ?m] => destruct (collect m) as [kinds|e] eqn:Ec
        end; [|discriminate H].
        cbn [bind] in H. injection H as <-.
        apply collect_Ok in Ec. constructor.
        -- apply Forall2_length in Ec. simpl in Ec. lia.
        -- clear - Ec IH'. induction Ec as [|a k l' ks Ha _ IHc];
             constructor.
           ++ inversion IH' as [|? ? Hx _]; subst. now apply Hx.
           ++ inversion IH'; subst. now apply IHc.
    + destruct (_get_json_type_not_union (Subscript origin args))
        as [(k & Hk & E)|E]; [exact Hu| |].
      * rewrite E in H. injection H as <-. now constructor.
      * rewrite E in H. discriminate H.
Qed.

Lemma kinds_are_closed_witness :
  well_kinded (JList [JStr "integer"; JStr "array"]).
Proof.
  apply (kinds_are_closed
           (Subscript UnionType
              [T_int; Atom NoneType;
               Subscript (a_class (Known c_list)) [T_str]])).
  reflexivity.
Defined.

Lemma raise_is_unmappable (python_type : annotation) (e : exn) :
  _get_json_type python_type = Raise e ->
  exists culprit,
    e = UnmappableTypeError culprit
    /\ is_union (get_origin culprit) = false
    /\ _get_json_type culprit = Raise e.
Proof.
  induction python_type as [a|origin args IH] using annotation_induction;
    intros H.
  - assert (Hu : is_union (get_origin (Atom a)) = false)
      by now destruct a as [| | | | | |[]].
    destruct (_get_json_type_not_union (Atom a) Hu) as [(k & _ & E)|E];
      rewrite E in H; [discriminate H|].
    injection H as <-. eauto.
  - destruct (is_union (Some origin)) eqn:Hu.
    + pose proof H as H0.
      rewrite _get_json_type_union in H by exact Hu. cbn [get_args] in H.
      assert (Hm : exists arg, In arg args /\ _get_json_type arg = Raise e).
      { destruct (non_none args) as [|x [|y l]] eqn:En.
        - discriminate H.
        - exists x. split; [|exact H].
          apply non_none_In. rewrite En. now left.
        - unfold for_each in H.
          match type of H with
          | context [collect ?m] =>
              destruct (collect m) as [kinds|e'] eqn:Ec
          end; [discriminate H|].
          cbn [bind] in H. injection H as ->.
          apply collect_Raise in Ec as (arg & Hin & Harg).
          exists arg. split; [|exact Harg].
          apply non_none_In. now rewrite En. }
      destruct Hm as (arg & Hin & Harg).
      rewrite Forall_forall in IH. now apply (IH arg Hin).
    + destruct (_get_json_type_not_union (Subscript origin args) Hu)
        as [(k & _ & E)|E]; rewrite E in H; [discriminate H|].
      injection H as <-. eauto.
Qed.



Lemma is_none_inv (arg : annotation) :
  is_none arg = true -> arg = Atom a_None \/ arg = Atom NoneType.
Proof.
  destruct arg as [a|]; simpl; [|discriminate].
  destruct (atom_eq_dec a a_None) as [->|_]; [now left|].
  destruct (atom_eq_dec a NoneType) as [->|_]; [now right|discriminate].
Qed.

(** X4.  On a union as [typing] builds it, line 59 is not reached: at least
    one member is neither [None] nor [type(None)], so the call is the one
    on the single such member or the list over the several. *)
Theorem null_branch_unreachable (origin : atom) (args : list annotation) :
  is_union (Some origin) = true ->
  union_members args ->
  (exists arg,
      non_none args = [arg]
      /\ _get_json_type (Subscript origin args) = _get_json_type arg)
  \/ (2 <= List.length (non_none args)
      /\ _get_json_type (Subscript origin args)
         = (l <- for_each _get_json_type (non_none args) ;; Ok (JList l))).
Proof.
  intros Hu (Hlen & Hnd & Hnone).
  rewrite _get_json_type_union by exact Hu. cbn [get_args].
  destruct (non_none args) as [|x [|y l]] eqn:En.
  - exfalso. destruct args as [|a [|b rest]]; simpl in Hlen; try lia.
    unfold non_none in En. cbn [filter] in En.
    destruct (is_none a) eqn:Ha; [|discriminate En].
    destruct (is_none b) eqn:Hb; [|discriminate En].
    apply is_none_inv in Ha as [->| ->]; [apply Hnone; now left|].
    apply is_none_inv in Hb as [->| ->]; [apply Hnone; right; now left|].
    inversion Hnd as [|? ? Hin _]; subst. apply Hin. now left.
  - left. now exists x.
  - right. split; [simpl; lia|reflexivity].
Qed.

Lemma null_branch_unreachable_witness :
  (exists arg,
      non_none [Atom NoneType; T_str] = [arg]
      /\ _get_json_type (Subscript UnionType [Atom NoneType; T_str])
         = _get_json_type arg)
  \/ (2 <= List.length (non_none [Atom NoneType; T_str])
      /\ _get_json_type (Subscript UnionType [Atom NoneType; T_str])
         = (l <- for_each _get_json_type (non_none [Atom NoneType; T_str]) ;;
            Ok (JList l))).
Proof.
  apply (null_branch_unreachable UnionType [Atom NoneType; T_str]).
  - reflexivity.
  - split; [simpl; lia|]. split.
    + repeat constructor; simpl; intuition discriminate.
    + simpl. intuition discriminate.
Defined.

(** ** Annotations that are not subscripted *)



(** X6.  A class that is no key of the table is resolved by its name
    alone, lowered, as a string is: not subscripted, whatever its base
    classes are, and subscripted, when it is a subclass of none of the
    containers. *)
Theorem other_class_by_name (name : string) (bases : list known_class)
    (args : list annotation) :
  let c := Other name bases in
  _get_json_type (Atom (a_class c)) = by_name name (Atom (a_class c))
  /\ (array_like c = false ->
      mapping_like c = false ->
      _get_json_type (Subscript (a_class c) args)
      = by_name name (Subscript (a_class c) args)).
Proof.
  intros c. unfold by_name. split.
  - rewrite _get_json_type_unfold. unfold get_json_type_body.
    cbn [get_origin is_union get_args map].
    subst c. rewrite TYPE_MAP_get_other.
    cbn [__name__ atom_name class_name].
    destruct (TYPE_MAP_get (Atom (a_str (Str.lower name)))) eqn:E;
      rewrite ?E; reflexivity.
  - intros Ha Hm. rewrite _get_json_type_unfold. unfold get_json_type_body.
    cbn [get_origin get_args]. subst c.
    rewrite is_union_other, TYPE_MAP_get_other. unfold subclass_kind.
    cbn [is_type origin_issubclass].
    fold (array_like (Other name bases)).
    fold (mapping_like (Other name bases)). rewrite Ha, Hm.
    cbn [__name__ atom_name class_name].
    change (TYPE_MAP_get (Subscript (a_class (Other name bases)) args))
      with (@None string).
    destruct (TYPE_MAP_get (Atom (a_str (Str.lower name)))) eqn:E;
      rewrite ?E; reflexivity.
Qed.

Lemma other_class_by_name_witness :
  _get_json_type (Atom (a_class (Other "MyList" [c_list])))
  = Raise (UnmappableTypeError (Atom (a_class (Other "MyList" [c_list]))))
  /\ _get_json_type (Subscript (a_class (Other "Int" [])) [T_str])
     = Ok (JStr "integer").
Proof.
  destruct (other_class_by_name "MyList" [c_list] []) as [H _].
  destruct (other_class_by_name "Int" [] [T_str]) as [_ H'].
  split; [exact H|]. apply H'; reflexivity.
Defined.

(** ** The string operations the module calls *)

Lemma prefix_drop (p : string) : forall s,
  String.prefix p s = true -> (p ++ Str.drop (String.length p) s)%string = s.
Proof.
  induction p as [|a p IH]; intros [|b s];
    cbn [String.prefix append String.length Str.drop];
    try reflexivity; try discriminate.
  destruct (ascii_dec a b) as [->|_]; [|discriminate].
  intros H. f_equal. now apply IH.
Qed.

Lemma prefix_trans (a : string) : forall b c,
  String.prefix a b = true -> String.prefix b c = true ->
  String.prefix a c = true.
Proof.
  induction a as [|x a IH]; intros [|y b] [|z c]; cbn [String.prefix];
    try reflexivity; try discriminate.
  destruct (ascii_dec x y) as [->|_]; [|discriminate].
  destruct (ascii_dec y z) as [->|_]; [|discriminate]. apply IH.
Qed.

Lemma prefix_app (p r : string) : String.prefix p (p ++ r) = true.
Proof.
  induction p as [|a p IH]; cbn [String.prefix append];
    [now destruct r|].
  destruct (ascii_dec a a); [exact IH|contradiction].
Qed.

Lemma length_drop (k : nat) : forall s,
  String.length (Str.drop k s) <= String.length s.
Proof.
  induction k as [|k IH]; intros [|c s]; simpl; auto.
Qed.

(** Passing the characters of an occurrence is dropping them. *)
Lemma split_from_skip (sep : string) (s : string) : forall k,
  Str.split_from sep k s = Str.split_from sep 0 (Str.drop k s).
Proof.
  induction s as [|c s IH]; intros [|k]; try reflexivity.
  cbn [Str.split_from Str.drop]. apply IH.
Qed.

Lemma join_cons (sep h : string) (t : list string) :
  Str.join sep (h :: t)
  = match t with
    | [] => h
    | _ => (h ++ sep ++ Str.join sep t)%string
    end.
Proof. now destruct t. Qed.

Lemma join_split_from (sep : string) :
  sep <> "" ->
  forall n s, String.length s <= n ->
    Str.join sep (Str.split sep s) = s.
Proof.
  intros Hsep. unfold Str.split.
  induction n as [|n IH]; intros s Hl.
  - destruct s; [reflexivity|simpl in Hl; lia].
  - destruct s as [|c s]; [reflexivity|]. cbn [Str.split_from].
    destruct (String.prefix sep (String c s)) eqn:Hp.
    + rewrite split_from_skip.
      assert (Hd : String.length (Str.drop (String.length sep - 1) s) <= n).
      { pose proof (length_drop (String.length sep - 1) s).
        simpl in Hl. lia. }
      specialize (IH _ Hd).
      destruct (Str.split_from sep 0 (Str.drop (String.length sep - 1) s))
        as [h t].
      rewrite join_cons, IH. cbn [append].
      apply prefix_drop in Hp.
      destruct sep as [|a sep]; [contradiction|].
      cbn [String.length Str.drop] in Hp.
      cbn [String.length].
      replace (S (String.length sep) - 1) with (String.length sep) by lia.
      exact Hp.
    + assert (Hd : String.length s <= n) by (simpl in Hl; lia).
      specialize (IH _ Hd).
      destruct (Str.split_from sep 0 s) as [h t].
      rewrite join_cons in IH |- *.
      destruct t; cbn [append]; f_equal; exact IH.
Qed.

(** X7.  Joining with the separator the segments [split] cuts a string
    into gives the string back: what lines 106, 119, 121 and 131 cut loses
    no character other than the separators. *)
Theorem join_split (sep s : string) :
  sep <> "" -> Str.join sep (Str.split sep s) = s.
Proof.
  intros Hsep. now apply (join_split_from sep Hsep (String.length s)).
Qed.

Lemma join_split_witness :
  Str.join "Args:" (Str.split "Args:" "Sum. Args: a: x Args:")
  = "Sum. Args: a: x Args:".
Proof.
  apply (join_split "Args:" "Sum. Args: a: x Args:"). discriminate.
Defined.

(** The first segment is a beginning of the string without the
    separator. *)
Lemma split_head (sep : string) (s : string) :
  String.prefix (fst (Str.split_from sep 0 s)) s = true
  /\ Str.contains sep (fst (Str.split_from sep 0 s)) = false.
Proof.
  induction s as [|c s [IHp IHc]]; [now split|].
  cbn [Str.split_from].
  destruct (String.prefix sep (String c s)) eqn:Hp; [now split|].
  destruct (Str.split_from sep 0 s) as [h t]. cbn [fst] in *.
  assert (Hh : String.prefix (String c h) (String c s) = true).
  { cbn [String.prefix].
    destruct (ascii_dec c c); [exact IHp|contradiction]. }
  split; [exact Hh|].
  cbn [Str.contains]. rewrite IHc, orb_false_r.
  destruct (String.prefix sep (String c h)) eqn:Hs; [|reflexivity].
  now rewrite (prefix_trans _ _ _ Hs Hh) in Hp.
Qed.

(** X8.  Once the text contains ['Args:'], lines 119-121 raise nothing:
    the indices 1 and 0 are in range.  The section they leave does not
    contain ['Returns:']. *)
Theorem args_section_without_returns (doc_string : string) :
  Str.contains "Args:" doc_string = true ->
  exists args_section,
    args_section_of doc_string = Ok args_section
    /\ Str.contains "Returns:" args_section = false.
Proof.
  intros H. unfold args_section_of.
  destruct (split_contains _ _ H) as (a & b & l & ->). cbn [index nth_error].
  cbn [bind].
  destruct (Str.contains "Returns:" b) eqn:Hr; [|now exists b].
  unfold Str.split. pose proof (split_head "Returns:" b) as [_ Hc].
  destruct (Str.split_from "Returns:" 0 b) as [h t].
  now exists h.
Qed.

Lemma args_section_without_returns_witness :
  exists args_section,
    args_section_of "Add.
    Args:
        a: First
    Returns:
        int: the sum" = Ok args_section
    /\ Str.contains "Returns:" args_section = false.
Proof.
  apply args_section_without_returns. reflexivity.
Defined.

(** ** Stripped strings *)

Lemma lstrip_head (s : string) : head_not_space (Str.lstrip s).
Proof.
  induction s as [|c s IH]; simpl; [exact I|].
  destruct (Str.is_space c) eqn:E; [exact IH|exact E].
Qed.

Lemma lstrip_id (s : string) : head_not_space s -> Str.lstrip s = s.
Proof. destruct s as [|c s]; simpl; [reflexivity|]. now intros ->. Qed.

Lemma rstrip_head (s : string) :
  head_not_space s -> head_not_space (Str.rstrip s).
Proof.
  destruct s as [|c s]; cbn [Str.rstrip]; [auto|].
  intros H. destruct (Str.rstrip s); [|exact H].
  simpl in H. now rewrite H.
Qed.

Lemma rstrip_idempotent (s : string) :
  Str.rstrip (Str.rstrip s) = Str.rstrip s.
Proof.
  induction s as [|c s IH]; [reflexivity|]. cbn [Str.rstrip].
  destruct (Str.rstrip s) as [|c' r] eqn:E.
  - destruct (Str.is_space c) eqn:Ec; [reflexivity|].
    cbn [Str.rstrip]. now rewrite Ec.
  - cbn [Str.rstrip] in IH |- *. now rewrite IH.
Qed.

Lemma strip_idempotent (s : string) : trimmed (Str.strip s).
Proof.
  unfold trimmed, Str.strip.
  rewrite (lstrip_id (Str.rstrip (Str.lstrip s))).
  - apply rstrip_idempotent.
  - apply rstrip_head, lstrip_head.
Qed.

Lemma find_description_Some (param_name : string) lines param_desc :
  find_description param_name lines = Ok (Some param_desc) ->
  exists text, param_desc = Str.strip text.
Proof.
  induction lines as [|line lines IH]; cbn [find_description];
    [discriminate|].
  destruct (describes param_name (Str.strip line)); [|exact IH].
  intros H. bind_inv H. injection H as <-. eauto.
Qed.

(** What holds of every entry line 141 writes holds of the entries after
    the loop. *)
Lemma loop_entries args_section (Q : Property -> Prop) :
  (forall param_name json param_desc,
      find_description param_name (Str.split Str.nl args_section)
      = Ok (Some param_desc) ->
      Q {| prop_type := json; prop_description := param_desc |}) ->
  forall items P P',
    for_loop (add_parameter args_section) P items = Ok P' ->
    Forall (fun kv => Q (snd kv)) (properties P) ->
    Forall (fun kv => Q (snd kv)) (properties P').
Proof.
  intros HQ.
  induction items as [|[n t] items IH]; intros P P' H HP.
  - now injection H as <-.
  - cbn [for_loop] in H. bind_inv H. apply (IH _ _ H). clear IH H.
    apply add_parameter_Ok in Ha
      as [[-> ->]|(_ & desc & json & Hf & _ & _ & Hp & _)]; [exact HP|].
    rewrite Hp. apply Forall_forall. intros kv Hkv.
    apply In_dict_set in Hkv as [E|Hkv].
    + rewrite E. now apply (HQ n).
    + revert kv Hkv. now apply Forall_forall.
Qed.

(** The constant parts of the dictionary and its description. *)
Lemma tool_dict_shape (func : Func.t) (d : ToolDict) :
  tool_dict func = Ok d ->
  exists doc_string,
    Func.__doc__ func = Some doc_string
    /\ tool_type d = "function"
    /\ name (function d) = Func.__name__ func
    /\ description (function d)
       = Str.strip
           (Str.join " " (description_lines (Str.split Str.nl doc_string))).
Proof.
  unfold tool_dict.
  destruct (Func.__doc__ func) as [[|c doc]|]; try discriminate.
  destruct (Str.contains "Args:" (String c doc)); cbn [negb];
    [|discriminate].
  intros H. bind_inv H. bind_inv H. bind_inv H. injection H as <-.
  now exists (String c doc).
Qed.

(** X9.  In a dictionary the call builds, the description of the function
    and the description of every parameter are stripped: [strip] leaves
    them as they are, so none begins or ends with white space. *)
Theorem descriptions_are_stripped (func : Func.t) (d : ToolDict) :
  tool_dict func = Ok d ->
  trimmed (description (function d))
  /\ Forall (fun kv => trimmed (prop_description (snd kv)))
       (properties (parameters (function d))).
Proof.
  intros H. split.
  - apply tool_dict_shape in H as (doc & _ & _ & _ & ->).
    apply strip_idempotent.
  - apply tool_dict_Ok in H as (doc & sec & _ & _ & _ & _ & Hloop & _).
    apply (loop_entries sec (fun entry => trimmed (prop_description entry)))
      in Hloop; [exact Hloop| |constructor].
    intros p json desc Hf. cbn [prop_description].
    apply find_description_Some in Hf as (text & ->).
    apply strip_idempotent.
Qed.

Lemma descriptions_are_stripped_witness :
  trimmed (description (function add_two_dict))
  /\ Forall (fun kv => trimmed (prop_description (snd kv)))
       (properties (parameters (function add_two_dict))).
Proof.
  apply (descriptions_are_stripped add_two add_two_dict). reflexivity.
Defined.

(** ** The line of a parameter *)

Lemma prefix_nil (s : string) : String.prefix "" s = true.
Proof. now destruct s. Qed.

Lemma append_assoc (a b c : string) :
  ((a ++ b) ++ c)%string = (a ++ b ++ c)%string.
Proof. induction a as [|x a IH]; simpl; [reflexivity|now rewrite IH]. Qed.

Lemma split1_without (sep s : string) :
  Str.contains sep s = false -> Str.split1 sep s = [s].
Proof.
  induction s as [|c s IH]; cbn [Str.contains Str.split1];
    [reflexivity|].
  intros H. apply orb_false_iff in H as [-> H]. now rewrite (IH H).
Qed.

Lemma split1_colon (name rest : string) :
  Str.contains ":" name = false ->
  Str.split1 ":" (name ++ ":" ++ rest) = [name; rest].
Proof.
  induction name as [|c name IH]; cbn [append Str.split1 Str.contains].
  - intros _. cbn [String.prefix].
    destruct (ascii_dec ":" ":"); [|contradiction].
    now rewrite prefix_nil.
  - intros H. apply orb_false_iff in H as [Hc H].
    cbn [String.prefix] in Hc |- *.
    destruct (ascii_dec ":" c); [now rewrite prefix_nil in Hc|].
    cbn [append] in IH. now rewrite (IH H).
Qed.

Lemma find_description_skip (param_name : string) before rest :
  forallb (fun line => negb (describes param_name (Str.strip line))) before
  = true ->
  find_description param_name (before ++ rest)
  = find_description param_name rest.
Proof.
  induction before as [|line before IH]; cbn [forallb app find_description];
    [reflexivity|].
  intros H. apply andb_prop in H as [H1 H2].
  apply negb_true_iff in H1. rewrite H1. now apply IH.
Qed.

(** X10.  The first line of the section that begins as a line of the
    parameter decides, the lines after it are not read.  When, stripped, it
    is the name, a colon and a text, the description is that text,
    stripped; when it has no colon at all, the call raises [IndexError]. *)
Theorem first_line_decides (param_name : string)
    (before : list string) (line : string) (after : list string) :
  forallb (fun line => negb (describes param_name (Str.strip line))) before
  = true ->
  (forall text,
      Str.contains ":" param_name = false ->
      Str.strip line = (param_name ++ ":" ++ text)%string ->
      find_description param_name (before ++ line :: after)
      = Ok (Some (Str.strip text)))
  /\ (describes param_name (Str.strip line) = true ->
      Str.contains ":" (Str.strip line) = false ->
      find_description param_name (before ++ line :: after)
      = Raise IndexError).
Proof.
  intros Hb. rewrite (find_description_skip _ _ _ Hb).
  cbn [find_description]. split.
  - intros text Hn E. rewrite E.
    assert (Hd : describes param_name (param_name ++ ":" ++ text) = true).
    { unfold describes, Str.startswith.
      now rewrite <- append_assoc, prefix_app. }
    rewrite Hd, (split1_colon _ _ Hn). reflexivity.
  - intros Hd Hc. rewrite Hd, (split1_without _ _ Hc). reflexivity.
Qed.

Lemma first_line_decides_witness :
  find_description "b"
    (["  a: First"] ++ "  b: Second: the other  " :: ["b: Third"])
  = Ok (Some "Second: the other")
  /\ find_description "b" (["  a: First"] ++ "  b (int) other" :: ["b: x"])
     = Raise IndexError.
Proof.
  split.
  - apply (proj1 (first_line_decides "b" ["  a: First"]
                    "  b: Second: the other  " ["b: Third"] eq_refl)
             " Second: the other"); reflexivity.
  - apply (proj2 (first_line_decides "b" ["  a: First"] "  b (int) other"
                    ["b: x"] eq_refl)); reflexivity.
Defined.

(** ** The exceptions of [convert_function_to_tool] *)

Lemma find_description_Raise (param_name : string) lines e :
  find_description param_name lines = Raise e -> e = IndexError.
Proof.
  induction lines as [|line lines IH]; cbn [find_description];
    [discriminate|].
  destruct (describes param_name (Str.strip line)); [|exact IH].
  unfold index. destruct (nth_error _ 1); cbn [bind]; [discriminate|].
  intros H. now injection H.
Qed.

Lemma add_parameter_Raise args_section P item e :
  add_parameter args_section P item = Raise e ->
  fst item <> "return"
  /\ (e = IndexError
      \/ e = MissingParameterDescriptionError (fst item)
      \/ exists python_type, e = UnmappableTypeError python_type).
Proof.
  destruct item as [p t]. unfold add_parameter. cbn [fst].
  destruct (String.eqb_spec p "return") as [->|Hne]; [discriminate|].
  intros H. split; [exact Hne|].
  destruct (find_description p (Str.split Str.nl args_section))
    as [[[|c desc]|]|e'] eqn:Ef; cbn [bind] in H.
  - injection H as <-. right. now left.
  - destruct (_get_json_type t) as [json|e'] eqn:Et; cbn [bind] in H;
      [discriminate H|].
    injection H as <-. right. right.
    apply raise_is_unmappable in Et as (culprit & -> & _). eauto.
  - injection H as <-. right. now left.
  - injection H as <-. left. now apply find_description_Raise in Ef.
Qed.

Lemma for_loop_Raise {S X : Type} (body : S -> X -> result S) xs e :
  forall state,
    for_loop body state xs = Raise e ->
    exists state' x, In x xs /\ body state' x = Raise e.
Proof.
  induction xs as [|x xs IH]; intros state; cbn [for_loop];
    [discriminate|].
  destruct (body state x) as [state'|e'] eqn:Eb; cbn [bind].
  - intros H. destruct (IH _ H) as (s' & x' & Hin & Hx').
    exists s', x'. split; [now right|exact Hx'].
  - intros H. injection H as <-. exists state, x. split; [now left|exact Eb].
Qed.

Lemma tool_dict_Raise (func : Func.t) (e : exn) :
  tool_dict func = Raise e -> raised_before_validation func e.
Proof.
  unfold tool_dict, raised_before_validation.
  destruct (Func.__doc__ func) as [[|c doc]|];
    try (intros H; injection H as <-; now left).
  destruct (Str.contains "Args:" (String c doc)) eqn:Hc; cbn [negb].
  2: { intros H. injection H as <-. right. now left. }
  destruct (args_section_exists _ Hc) as (sec & ->). cbn [bind].
  fold no_parameters.
  destruct (for_loop (add_parameter sec) no_parameters
              (Func.__annotations__ func)) as [P|e'] eqn:El; cbn [bind].
  - destruct (return_type_of (Func.__annotations__ func)) as [r|e'] eqn:Er;
      cbn [bind]; [discriminate|].
    intros H. injection H as <-. right. right. right. left.
    unfold return_type_of in Er.
    destruct (dict_get "return" (Func.__annotations__ func)) as [ret|];
      [|discriminate Er].
    assert (Hr : _get_json_type ret = Raise e').
    { revert Er.
      destruct ret as [[]|]; try discriminate;
        (match goal with
         | |- context [bind ?r _] => destruct r
         end; cbn [bind];
         [discriminate|intros H; now injection H as ->]). }
    apply raise_is_unmappable in Hr as (culprit & -> & _). eauto.
  - intros H. injection H as <-.
    apply for_loop_Raise in El as (P & [p t] & Hin & Hb).
    apply add_parameter_Raise in Hb as (Hne & [->|[->|Hu]]).
    + repeat right. reflexivity.
    + right. right. left. exists p. split; [|reflexivity].
      unfold keys, declared. apply in_map_iff. exists (p, t).
      split; [reflexivity|]. apply filter_In. split; [exact Hin|].
      cbn [fst] in *. apply String.eqb_neq in Hne. now rewrite Hne.
    + right. right. right. now left.
Qed.

Section Taxonomy.

Variable Tool : Type.
Variable Raw : Type.
Variable model_validate : validated Raw -> result Tool.

(** X11.  For a callable with a [__name__], a [__doc__] and
    [__annotations__] that can be hashed, as those of [Func.t] are, an
    exception of [convert_function_to_tool] is one of the four
    [ValueError]s of the module (on the docstring and on the section with
    the name of the function, on the description with the name of a
    parameter of [func.__annotations__] other than ['return'], on an
    annotation), the [IndexError] of line 135, or what the validator
    raises on the dictionary built. *)
Theorem exceptions_of_convert (func : Func.t) (e : exn) :
  convert_function_to_tool Tool Raw model_validate func = Raise e ->
  raised_before_validation func e
  \/ exists d, tool_dict func = Ok d /\ model_validate (built d) = Raise e.
Proof.
  unfold convert_function_to_tool.
  destruct (tool_dict func) as [d|e'] eqn:Ed; cbn [bind].
  - intros H. right. now exists d.
  - intros H. injection H as <-. left. now apply tool_dict_Raise.
Qed.

End Taxonomy.

Lemma exceptions_of_convert_witness :
  raised_before_validation unmappable_first (UnmappableTypeError Foo)
  \/ exists d,
       tool_dict unmappable_first = Ok d
       /\ accept_built (built d) = Raise (UnmappableTypeError Foo).
Proof.
  apply (exceptions_of_convert _ _ accept_built unmappable_first).
  reflexivity.
Defined.

(** ** The entries of ['properties'] *)

Lemma NoDup_move {A : Type} (l1 l2 : list A) (n : A) :
  NoDup (l1 ++ n :: l2) -> NoDup ((l1 ++ [n]) ++ l2).
Proof.
  rewrite <- app_assoc. cbn [app].
  induction l1 as [|x l1 IH]; cbn [app]; intros H.
  - exact H.
  - inversion H as [|? ? Hx Hd]; subst. constructor.
    + intros Hin. apply Hx. apply in_app_or in Hin as [Hin|Hin];
        apply in_or_app; [now left|now right].
    + now apply IH.
Qed.

Lemma loop_entries_exact args_section items : forall P P',
  for_loop (add_parameter args_section) P items = Ok P' ->
  NoDup (keys (properties P) ++ keys (declared items)) ->
  exists entries,
    properties P' = properties P ++ entries
    /\ Forall2 (entry_of args_section) (declared items) entries.
Proof.
  induction items as [|[n t] items IH]; intros P P' H Hnd.
  - injection H as <-. exists []. rewrite app_nil_r. now split.
  - cbn [for_loop] in H. bind_inv H.
    apply add_parameter_Ok in Ha
      as [[-> ->]|(Hne & desc & json & Hf & _ & Ht & Hp & _)].
    + now apply IH.
    + revert Hnd. unfold declared. cbn [filter fst].
      apply String.eqb_neq in Hne. rewrite Hne. cbn [negb keys map fst].
      fold (declared items). fold (keys (declared items)).
      fold (keys (properties P)). intros Hnd.
      assert (Hnew : ~ In n (keys (properties P))).
      { intros Hin. apply NoDup_remove_2 in Hnd. apply Hnd.
        apply in_or_app. now left. }
      rewrite (dict_set_new _ _ _ Hnew) in Hp.
      destruct (IH _ _ H) as (entries & Hp' & HF).
      { rewrite Hp. unfold keys at 1. rewrite map_app. cbn [map fst].
        now apply NoDup_move. }
      eexists. split.
      * rewrite Hp', Hp, <- app_assoc. reflexivity.
      * cbn [app]. constructor; [|exact HF]. now repeat split.
Qed.

(** X12.  For distinct keys of [func.__annotations__], the entries of
    ['properties'] are, one for each item other than ['return'] and in
    their order: under the name of the item, the kind [_get_json_type]
    returns on its annotation, and the description [find_description]
    finds for the name in the lines of the section. *)
Theorem properties_are_exact (func : Func.t) (d : ToolDict) :
  NoDup (keys (Func.__annotations__ func)) ->
  tool_dict func = Ok d ->
  exists doc_string args_section,
    Func.__doc__ func = Some doc_string
    /\ args_section_of doc_string = Ok args_section
    /\ Forall2 (entry_of args_section)
         (declared (Func.__annotations__ func))
         (properties (parameters (function d))).
Proof.
  intros Hnd H.
  apply tool_dict_Ok in H as (doc & sec & Hd & _ & _ & Hs & Hloop & _).
  exists doc, sec. split; [exact Hd|]. split; [exact Hs|].
  apply loop_entries_exact in Hloop as (entries & -> & HF); [exact HF|].
  cbn [properties no_parameters keys map app].
  now apply NoDup_keys_filter.
Qed.

Lemma properties_are_exact_witness :
  exists doc_string args_section,
    Func.__doc__ add_two = Some doc_string
    /\ args_section_of doc_string = Ok args_section
    /\ Forall2 (entry_of args_section)
         (declared (Func.__annotations__ add_two))
         (properties (parameters (function add_two_dict))).
Proof.
  apply (properties_are_exact add_two add_two_dict).
  - repeat constructor; simpl; intuition discriminate.
  - reflexivity.
Defined.

(** ** The description of the function *)

(** X13.  The lines kept for the description stop at the first line that,
    stripped, begins with ['Args:']: nothing of that line or of the lines
    after it is in the description. *)
Theorem description_stops_at_marker (before : list string) (line : string)
    (after : list string) :
  Str.startswith (Str.strip line) "Args:" = true ->
  description_lines (before ++ line :: after) = description_lines before.
Proof.
  intros Hm.
  induction before as [|l before IH]; cbn [app description_lines].
  - now rewrite Hm.
  - destruct (Str.startswith (Str.strip l) "Args:"); [reflexivity|].
    destruct (truthy (Str.strip l)); [now rewrite IH|exact IH].
Qed.

Lemma description_stops_at_marker_witness :
  description_lines
    (["Add two numbers."; ""; "  They are integers. "]
       ++ "  Args: the two" :: ["  a: First"; "Trailing text"])
  = description_lines ["Add two numbers."; ""; "  They are integers. "].
Proof.
  apply (description_stops_at_marker
           ["Add two numbers."; ""; "  They are integers. "]
           "  Args: the two" ["  a: First"; "Trailing text"]).
  reflexivity.
Defined.

(** ** [process_tools] on a concatenation *)

Section Concatenation.

Variable Tool : Type.
Variable Raw : Type.
Variable model_validate : validated Raw -> result Tool.

Local Abbreviation normalize := (process_tools Tool Raw model_validate).
Local Abbreviation route := (route Tool Raw model_validate).

Lemma process_tools_for_each (tools : list (tool_item Raw)) :
  normalize (Some tools) = for_each route tools.
Proof.
  destruct tools as [|tool tools]; [reflexivity|].
  unfold process_tools. rewrite process_loop.
  now destruct (for_each route (tool :: tools)).
Qed.

Lemma for_each_app {A B : Type} (f : A -> result B) (xs ys : list A) :
  for_each f (xs ++ ys)
  = (a <- for_each f xs ;; b <- for_each f ys ;; Ok (a ++ b)).
Proof.
  unfold for_each. induction xs as [|x xs IH]; cbn [app map collect].
  - cbn [bind]. now destruct (collect _).
  - destruct (f x) as [y|e]; cbn [bind]; [|reflexivity].
    rewrite IH. clear IH.
    match goal with
    | |- context [bind ?cx (fun a => bind ?cy _)] =>
        destruct cx; cbn [bind]; [destruct cy|]; reflexivity
    end.
Qed.

(** X14.  Processing a sequence in two parts gives the same as processing it
    whole: the tools of the first part followed by those of the second,
    or the first exception, which is one of the first part if it raises. *)
Theorem process_tools_app (xs ys : list (tool_item Raw)) :
  normalize (Some (xs ++ ys))
  = (a <- normalize (Some xs) ;;
     b <- normalize (Some ys) ;;
     Ok (a ++ b)).
Proof. rewrite !process_tools_for_each. apply for_each_app. Qed.

End Concatenation.

(** ** Unions with the same members *)

(** X15.  The outcome on a union depends only on its members other than
    [None] and [type(None)], in their order: it is the same for
    [Union[...]] and for [|], and wherever the absent members stand. *)
Theorem union_up_to_absence (origin origin' : atom)
    (args args' : list annotation) :
  is_union (Some origin) = true ->
  is_union (Some origin') = true ->
  non_none args = non_none args' ->
  _get_json_type (Subscript origin args)
  = _get_json_type (Subscript origin' args').
Proof.
  intros Hu Hu' E.
  rewrite (_get_json_type_union (Subscript origin args)) by exact Hu.
  rewrite (_get_json_type_union (Subscript origin' args')) by exact Hu'.
  cbn [get_args]. now rewrite E.
Qed.

Lemma union_up_to_absence_witness :
  _get_json_type (Subscript a_Union [T_int; T_str; Atom NoneType])
  = _get_json_type (Subscript UnionType [Atom NoneType; T_int; T_str]).
Proof.
  apply (union_up_to_absence a_Union UnionType
           [T_int; T_str; Atom NoneType] [Atom NoneType; T_int; T_str]);
    reflexivity.
Defined.

(** ** Descriptions without line feeds *)

Lemma chars_lstrip (s : string) (c : ascii) :
  In c (chars (Str.lstrip s)) -> In c (chars s).
Proof.
  induction s as [|x s IH]; cbn [Str.lstrip chars]; [auto|].
  destruct (Str.is_space x); [|auto]. intros H. right. now apply IH.
Qed.

Lemma chars_rstrip (s : string) (c : ascii) :
  In c (chars (Str.rstrip s)) -> In c (chars s).
Proof.
  induction s as [|x s IH]; cbn [Str.rstrip chars]; [auto|].
  destruct (Str.rstrip s) as [|y r].
  - destruct (Str.is_space x); cbn [chars]; [intros []|].
    intros [H|[]]. now left.
  - cbn [chars] in *. intros [H|H]; [now left|right; now apply IH].
Qed.

Lemma chars_strip (s : string) (c : ascii) :
  In c (chars (Str.strip s)) -> In c (chars s).
Proof.
  unfold Str.strip. intros H. now apply chars_lstrip, chars_rstrip.
Qed.

Lemma chars_append (a b : string) :
  chars (a ++ b) = chars a ++ chars b.
Proof. induction a as [|x a IH]; simpl; [reflexivity|now rewrite IH]. Qed.

Lemma chars_join (sep : string) (l : list string) (c : ascii) :
  In c (chars (Str.join sep l)) ->
  In c (chars sep) \/ exists s, In s l /\ In c (chars s).
Proof.
  induction l as [|x l IH]; [intros []|].
  rewrite join_cons. destruct l as [|y l].
  - intros H. right. exists x. split; [now left|exact H].
  - rewrite !chars_append. intros H.
    apply in_app_or in H as [H|H]; [right; exists x; split; auto; now left|].
    apply in_app_or in H as [H|H]; [now left|].
    destruct (IH H) as [H'|(s & Hs & Hc)]; [now left|].
    right. exists s. split; [now right|exact Hc].
Qed.

(** No segment of a string cut at the line feeds has a line feed. *)
Lemma split_lines (s line : string) :
  In line (Str.split Str.nl s) -> ~ In LF (chars line).
Proof.
  unfold Str.split. revert line.
  induction s as [|x s IH]; intros line.
  - intros [<-|[]]. intros [].
  - cbn [Str.split_from]. unfold Str.nl at 1. cbn [String.prefix].
    destruct (ascii_dec (ascii_of_nat 10) x) as [E|Hx].
    + rewrite prefix_nil. change (String.length Str.nl - 1) with 0.
      destruct (Str.split_from Str.nl 0 s) as [h t].
      intros [<-|H]; [intros []|now apply IH].
    + destruct (Str.split_from Str.nl 0 s) as [h t].
      intros [<-|H].
      * cbn [chars]. intros [E|H]; [now apply Hx|].
        revert H. apply IH. now left.
      * apply IH. now right.
Qed.

Lemma description_lines_In (lines : list string) (line : string) :
  In line (description_lines lines) ->
  exists l, In l lines /\ line = Str.strip l.
Proof.
  induction lines as [|l lines IH]; cbn [description_lines]; [intros []|].
  destruct (Str.startswith (Str.strip l) "Args:"); [intros []|].
  destruct (truthy (Str.strip l)).
  - intros [<-|H]; [exists l; split; [now left|reflexivity]|].
    destruct (IH H) as (l' & Hl & E). exists l'. split; [now right|exact E].
  - intros H. destruct (IH H) as (l' & Hl & E).
    exists l'. split; [now right|exact E].
Qed.

Lemma chars_drop (k : nat) : forall s c,
  In c (chars (Str.drop k s)) -> In c (chars s).
Proof.
  induction k as [|k IH]; intros [|x s] c; cbn [Str.drop chars]; auto.
  intros H. right. now apply IH.
Qed.

Lemma chars_split1 (sep : string) (s after : string) (c : ascii) :
  nth_error (Str.split1 sep s) 1 = Some after ->
  In c (chars after) -> In c (chars s).
Proof.
  revert after. induction s as [|x s IH]; intros after;
    cbn [Str.split1]; [discriminate|].
  destruct (String.prefix sep (String x s)).
  - cbn [nth_error]. intros H. injection H as <-. apply chars_drop.
  - destruct (Str.split1 sep s) as [|h t] eqn:E; [discriminate|].
    cbn [nth_error chars] in *. intros H Hc. right. now apply (IH after).
Qed.

Lemma find_description_chars (param_name : string) lines param_desc c :
  find_description param_name lines = Ok (Some param_desc) ->
  In c (chars param_desc) ->
  exists line, In line lines /\ In c (chars line).
Proof.
  induction lines as [|line lines IH]; cbn [find_description];
    [discriminate|].
  destruct (describes param_name (Str.strip line)).
  - unfold index.
    destruct (nth_error (Str.split1 ":" (Str.strip line)) 1) as [after|]
      eqn:E; cbn [bind]; [|discriminate].
    intros H Hc. injection H as <-. exists line. split; [now left|].
    apply chars_strip. apply (chars_split1 _ _ _ _ E).
    now apply chars_strip.
  - intros H Hc. destruct (IH H Hc) as (l & Hl & Hcl).
    exists l. split; [now right|exact Hcl].
Qed.

(** X16.  In a dictionary the call builds, neither the description of the
    function nor the description of a parameter contains a line feed:
    each is on one line. *)
Theorem descriptions_on_one_line (func : Func.t) (d : ToolDict) :
  tool_dict func = Ok d ->
  ~ In LF (chars (description (function d)))
  /\ Forall (fun kv => ~ In LF (chars (prop_description (snd kv))))
       (properties (parameters (function d))).
Proof.
  intros H. split.
  - apply tool_dict_shape in H as (doc & _ & _ & _ & ->).
    intros Hc. apply chars_strip, chars_join in Hc as [Hc|(s & Hs & Hc)].
    + destruct Hc as [Hc|[]]. discriminate Hc.
    + apply description_lines_In in Hs as (l & Hl & ->).
      apply chars_strip in Hc. now apply (split_lines _ _ Hl).
  - apply tool_dict_Ok in H as (doc & sec & _ & _ & _ & _ & Hloop & _).
    apply (loop_entries sec
             (fun entry => ~ In LF (chars (prop_description entry))))
      in Hloop; [exact Hloop| |constructor].
    intros p json desc Hf Hc. cbn [prop_description] in Hc.
    destruct (find_description_chars _ _ _ _ Hf Hc) as (line & Hl & Hcl).
    now apply (split_lines _ _ Hl).
Qed.

Lemma descriptions_on_one_line_witness :
  ~ In LF (chars (description (function add_two_dict)))
  /\ Forall (fun kv => ~ In LF (chars (prop_description (snd kv))))
       (properties (parameters (function add_two_dict))).
Proof.
  apply (descriptions_on_one_line add_two add_two_dict). reflexivity.
Defined.
